(** * The IOHMM base class of [base.py]

    A shallow embedding of [_BaseIOHMM]: the scaled forward and backward
    passes, the posterior statistics, the dynamic transition builder and the
    EM driver [fit], followed by the properties the specification states
    about them.

    Python objects are modelled as follows.
    - A float is an element of a carrier [F] with the operations of the
      class [Arith], among them numpy's reductions; the methods are generic
      in it.  The instance is IEEE-754 binary64 (Rocq's primitive floats),
      whose division by zero yields an infinity and never raises, as numpy's
      float64 scalars do.
    - A numpy array is a list (a vector), a list of rows (a matrix) or a
      list of matrices; indexing out of range raises [IndexError].
    - An exception is a constructor of [exn]; a method that can raise
      returns a [result].
    - [self] is a record; a method that assigns attributes returns the
      updated record next to its result. *)

From Stdlib Require Import ZArith Bool Floats Lia String.
From stdpp Require Import base list.

(** ** Exceptions and the error monad *)

Module Py.

Inductive exn : Type :=
| TypeError
| IndexError
| ValueError
| AttributeError
| UnboundLocalError.

Inductive result (A : Type) : Type :=
| Ok (a : A)
| Raise (e : exn).

Arguments Ok {A} a.
Arguments Raise {A} e.

Definition bind {A B : Type} (r : result A) (k : A -> result B) : result B :=
  match r with
  | Ok a => k a
  | Raise e => Raise e
  end.

(** [seq[i]] for a non-negative index. *)
Definition getitem {A : Type} (l : list A) (i : nat) : result A :=
  match l !! i with
  | Some x => Ok x
  | None => Raise IndexError
  end.

(** [seq[i] = x] for a non-negative index. *)
Definition setitem {A : Type} (l : list A) (i : nat) (x : A) : result (list A) :=
  if decide (i < length l) then Ok (<[i := x]> l) else Raise IndexError.

(** [seq[-k]] for [k >= 1]. *)
Definition getitem_neg {A : Type} (l : list A) (k : nat) : result A :=
  if decide (1 <= k <= length l) then getitem l (length l - k) else Raise IndexError.

(** [range(lo, hi)] and [range(hi - 1, -1, -1)]. *)
Definition range (lo hi : nat) : list nat := seq lo (hi - lo).
Definition range_down (hi : nat) : list nat := reverse (seq 0 hi).

(** A [for] loop without [break] whose body updates the state [S]. *)
Fixpoint for_each {S : Type} (l : list nat) (body : nat -> S -> result S) (s : S)
  : result S :=
  match l with
  | [] => Ok s
  | t :: l' => bind (body t s) (for_each l' body)
  end.

End Py.

Export Py.

Declare Scope py_scope.
Delimit Scope py_scope with py.
Notation "x <- r ;; k" := (bind r (fun x => k))
  (at level 100, r at next level, right associativity) : py_scope.
Open Scope py_scope.

(** ** Floating-point interface *)

(** The scalar operations of Python floats, and the two reductions of
    numpy that the program calls: [np.sum] of a vector and the inner product
    by which [np.dot] computes each entry of a matrix-vector product.  The
    order in which numpy adds the terms is not part of its interface, so the
    reductions are operations of the arithmetic and no statement depends on
    that order. *)
Class Arith (F : Type) : Type := {
  f0 : F;
  f1 : F;
  fadd : F -> F -> F;
  fsub : F -> F -> F;
  fmul : F -> F -> F;
  fdiv : F -> F -> F;
  fopp : F -> F;
  fltb : F -> F -> bool;
  np_sum : list F -> F;
  np_inner : list F -> list F -> F
}.

(** [np.exp] and [np.log]. *)
Class Transcendental (F : Type) : Type := {
  np_exp : F -> F;
  np_log : F -> F
}.

(** [util.extmath.softmax]: the module [util] lies outside [base.py], so the
    function is a parameter of the model. *)
Class Extmath (F : Type) : Type := {
  extmath_softmax : list (list F) -> result (list (list F))
}.

(** Identities of the arithmetic that some statements rely on: multiplying
    by one and by minus one is exact and multiplication commutes.  They are
    proved for binary64 below. *)
Class ArithLaws (F : Type) `{Arith F} : Prop := {
  fmul_1_l : forall x : F, fmul f1 x = x;
  fmul_m1_l : forall x : F, fmul (fopp f1) x = fopp x;
  fmul_comm : forall x y : F, fmul x y = fmul y x
}.

(** ** numpy arrays *)

Abbreviation vec F := (list F) (only parsing).
Abbreviation mat F := (list (list F)) (only parsing).
Abbreviation tensor F := (list (list (list F))) (only parsing).

Section Numpy.

Context {F : Type} `{Arith F}.

Definition np_zeros (T : nat) : vec F := replicate T f0.
Definition np_zeros2 (T n : nat) : mat F := replicate T (replicate n f0).
Definition np_ones2 (T n : nat) : mat F := replicate T (replicate n f1).
(** [np.tile(x, (T, n, m))] for a scalar [x]. *)
Definition np_tile3 (x : F) (T n m : nat) : tensor F :=
  replicate T (replicate n (replicate m x)).

(** [v * s] for a vector [v] and a scalar [s]. *)
Definition scale (v : vec F) (s : F) : vec F := (fun x => fmul x s) <$> v.

(** [M / s] for a matrix [M] and a scalar [s]. *)
Definition div_scalar (M : mat F) (s : F) : mat F :=
  (fun row : list F => (fun x => fdiv x s) <$> row) <$> M.

(** [u * v] for two vectors, with numpy's broadcasting of a vector of
    length one. *)
Definition np_mul (u v : vec F) : result (vec F) :=
  if decide (length u = length v) then Ok (zip_with fmul u v)
  else if decide (length u = 1) then Ok (fmul (default f0 (head u)) <$> v)
  else if decide (length v = 1) then Ok ((fun x => fmul x (default f0 (head v))) <$> u)
  else Raise ValueError.

(** [A.T]: the columns of [A] as rows; the number of columns is read off
    the first row. *)
Definition ncols (A : mat F) : nat := length (default [] (head A)).
Definition column (A : mat F) (i : nat) : vec F := (fun row : list F => default f0 (row !! i)) <$> A.
Definition transpose (A : mat F) : mat F := column A <$> seq 0 (ncols A).

(** [np.dot(A, v[np.newaxis].T).flatten()]: the product of a matrix with a
    column vector, flattened to a vector. *)
Definition np_dot (A : mat F) (v : vec F) : result (vec F) :=
  if decide (Forall (fun row : list F => length row = length v) A)
  then Ok ((fun row : list F => np_inner row v) <$> A)
  else Raise ValueError.

(** [M[t] = v] for a matrix [M] and a vector [v], which numpy broadcasts
    when it has length one. *)
Definition setitem_row (M : mat F) (t : nat) (v : vec F) : result (mat F) :=
  row <- getitem M t ;;
  if decide (length v = length row) then Ok (<[t := v]> M)
  else if decide (length v = 1) then Ok (<[t := replicate (length row) (default f0 (head v))]> M)
  else Raise ValueError.

(** [M[t][i]] and [M[t][i] = x]. *)
Definition getitem2 (M : mat F) (t i : nat) : result F :=
  row <- getitem M t ;; getitem row i.
Definition setitem2 (M : mat F) (t i : nat) (x : F) : result (mat F) :=
  row <- getitem M t ;;
  row' <- setitem row i x ;;
  Ok (<[t := row']> M).

(** [X[t][i][j]] and [X[t][i][j] = x]. *)
Definition getitem3 (X : tensor F) (t i j : nat) : result F :=
  M <- getitem X t ;; getitem2 M i j.
Definition setitem3 (X : tensor F) (t i j : nat) (x : F) : result (tensor F) :=
  M <- getitem X t ;;
  M' <- setitem2 M i j x ;;
  Ok (<[t := M']> X).

(** Shapes. *)
Definition shape2 (M : mat F) (T n : nat) : Prop :=
  length M = T /\ Forall (fun row => length row = n) M.
Definition shape3 (X : tensor F) (T n m : nat) : Prop :=
  length X = T /\ Forall (fun M => shape2 M n m) X.

(** Total readers for statements: the entry, or zero out of range. *)
Definition at1 (v : vec F) (i : nat) : F := default f0 (v !! i).
Definition at2 (M : mat F) (t i : nat) : F := at1 (default [] (M !! t)) i.
Definition at3 (X : tensor F) (t i j : nat) : F := at2 (default [] (X !! t)) i j.

End Numpy.


(** ** State and errors together

    [fit] assigns attributes of [self] and local variables between calls
    that can raise; the state reached when an exception is raised is kept. *)

Definition M (S A : Type) : Type := S -> result A * S.

Definition sret {S A : Type} (a : A) : M S A := fun s => (Ok a, s).

Definition sbind {S A B : Type} (m : M S A) (k : A -> M S B) : M S B :=
  fun s =>
    match m s with
    | (Ok a, s') => k a s'
    | (Raise e, s') => (Raise e, s')
    end.

Definition lift {S A : Type} (r : result A) : M S A := fun s => (r, s).

Definition gets {S A : Type} (f : S -> A) : M S A := fun s => (Ok (f s), s).

Definition modify {S : Type} (f : S -> S) : M S unit := fun s => (Ok tt, f s).

Notation "x <~ m ;; k" := (sbind m (fun x => k))
  (at level 100, m at next level, right associativity) : py_scope.
Notation "m ;;; k" := (sbind m (fun _ => k))
  (at level 100, right associativity) : py_scope.

(** A [for] loop without [break] in the state-and-error monad. *)
Fixpoint for_each_M {S : Type} (l : list nat) (body : nat -> M S unit) : M S unit :=
  match l with
  | [] => sret tt
  | t :: l' => body t ;;; for_each_M l' body
  end.

(** A method call that passes [given] positional arguments to a method of
    [accepts] parameters ([self] not counted on either side): Python raises
    [TypeError] before the body runs when the two differ. *)
Definition call_method {S A : Type} (accepts given : nat) (m : M S A) : M S A :=
  fun s => if decide (accepts = given) then m s else (Raise TypeError, s).

(** ** The model object *)

Section Model.

Context {F : Type} `{Arith F} `{Transcendental F} `{Extmath F}.

(** The attributes of a [_BaseIOHMM] instance.  [scaling_factors],
    [trans_posts] and [state_posts] do not exist until a method assigns
    them. *)
Record IOHMM : Type := {
  n_components : nat;
  ins : list (mat F);
  n_iter : Z;
  thresh : F;
  params : string;
  init_params : string;
  startprob : option (vec F);
  algorithm : string;
  random_state : option Z;
  input_dim : nat;
  trans_weight_mat : tensor F;
  scaling_factors : option (vec F);
  trans_posts : option (tensor F);
  state_posts : option (mat F)
}.

Definition set_scaling_factors (v : vec F) (self : IOHMM) : IOHMM :=
  {| n_components := n_components self; ins := ins self; n_iter := n_iter self;
     thresh := thresh self; params := params self; init_params := init_params self;
     startprob := startprob self; algorithm := algorithm self;
     random_state := random_state self; input_dim := input_dim self;
     trans_weight_mat := trans_weight_mat self;
     scaling_factors := Some v;
     trans_posts := trans_posts self; state_posts := state_posts self |}.

Definition set_trans_posts (X : tensor F) (self : IOHMM) : IOHMM :=
  {| n_components := n_components self; ins := ins self; n_iter := n_iter self;
     thresh := thresh self; params := params self; init_params := init_params self;
     startprob := startprob self; algorithm := algorithm self;
     random_state := random_state self; input_dim := input_dim self;
     trans_weight_mat := trans_weight_mat self;
     scaling_factors := scaling_factors self;
     trans_posts := Some X; state_posts := state_posts self |}.

Definition set_state_posts (M : mat F) (self : IOHMM) : IOHMM :=
  {| n_components := n_components self; ins := ins self; n_iter := n_iter self;
     thresh := thresh self; params := params self; init_params := init_params self;
     startprob := startprob self; algorithm := algorithm self;
     random_state := random_state self; input_dim := input_dim self;
     trans_weight_mat := trans_weight_mat self;
     scaling_factors := scaling_factors self;
     trans_posts := trans_posts self; state_posts := Some M |}.

(** The float of a small non-negative integer. *)
Definition of_nat (k : nat) : F := Nat.iter k (fadd f1) f0.

(** [__init__]: [ins[0].shape[1]] is the width of the first input
    sequence. *)
Definition __init__ (n_components : nat) (ins : list (mat F)) (startprob : option (vec F))
    (algorithm : string) (random_state : option Z) (n_iter : Z) (thresh : F)
    (params init_params : string) : result IOHMM :=
  first <- getitem ins 0 ;;
  let input_dim := ncols first in
  Ok {| n_components := n_components; ins := ins; n_iter := n_iter; thresh := thresh;
        params := params; init_params := init_params; startprob := startprob;
        algorithm := algorithm; random_state := random_state; input_dim := input_dim;
        trans_weight_mat :=
          np_tile3 (fdiv f1 (of_nat (input_dim + 1))) n_components n_components (input_dim + 1);
        scaling_factors := None; trans_posts := None; state_posts := None |}.

(** [self.startprob[...]]: subscripting [None] raises [TypeError]. *)
Definition startprob_vector (self : IOHMM) : result (vec F) :=
  match startprob self with
  | Some sp => Ok sp
  | None => Raise TypeError
  end.

(** ** [_do_forward_pass] *)

(** Lines 177-179 and 182-184 are the same three statements at row [t]:
<<
    fwdlattice[t] = np.dot(transmat[0].T, prev[np.newaxis].T).flatten() * framelogprob[t]
    scaling_factors[t] = 1 / np.sum(fwdlattice[t])
    fwdlattice[t] = fwdlattice[t] * scaling_factors[t]
>>
    where [prev] is [self.startprob] at [t = 0] and [fwdlattice[t-1]] in the
    loop. *)
Definition forward_update (transmat : tensor F) (framelogprob : mat F)
    (prev : mat F -> result (vec F)) (t : nat) (st : mat F * vec F)
    : result (mat F * vec F) :=
  let fwdlattice := st.1 in
  let scaling_factors := st.2 in
  tm0 <- getitem transmat 0 ;;
  p <- prev fwdlattice ;;
  d <- np_dot (transpose tm0) p ;;
  flp_t <- getitem framelogprob t ;;
  v <- np_mul d flp_t ;;
  fwdlattice <- setitem_row fwdlattice t v ;;
  row <- getitem fwdlattice t ;;
  scaling_factors <- setitem scaling_factors t (fdiv f1 (np_sum row)) ;;
  row <- getitem fwdlattice t ;;
  s <- getitem scaling_factors t ;;
  fwdlattice <- setitem_row fwdlattice t (scale row s) ;;
  Ok (fwdlattice, scaling_factors).

Definition forward_lattice (self : IOHMM) (transmat : tensor F) (framelogprob : mat F)
    : result (mat F * vec F) :=
  let T := length framelogprob in
  let fwdlattice := np_zeros2 T (n_components self) in
  let scaling_factors := np_zeros T in
  st <- forward_update transmat framelogprob (fun _ => startprob_vector self) 0
          (fwdlattice, scaling_factors) ;;
  for_each (range 1 T)
    (fun t => forward_update transmat framelogprob (fun fwd => getitem fwd (t - 1)) t) st.

Definition _do_forward_pass (self : IOHMM) (transmat : tensor F) (framelogprob : mat F)
    : result (F * mat F) * IOHMM :=
  match forward_lattice self transmat framelogprob with
  | Raise e => (Raise e, self)
  | Ok (fwdlattice, scaling_factors) =>
      let likelihood := np_exp (fmul (fopp f1) (np_sum (np_log <$> scaling_factors))) in
      (Ok (likelihood, fwdlattice), set_scaling_factors scaling_factors self)
  end.

(** ** [_do_backward_pass] *)

(** [self.scaling_factors]: the attribute is missing before the first
    forward pass. *)
Definition scaling_factors_attr (self : IOHMM) : result (vec F) :=
  match scaling_factors self with
  | Some v => Ok v
  | None => Raise AttributeError
  end.

(** Line 199: [bwdlattice[t][i] += transmat[t][i][j] * bwdlattice[t+1][j] * framelogprob[t+1][j]]. *)
Definition backward_accumulate (transmat : tensor F) (framelogprob : mat F)
    (t i j : nat) (bwdlattice : mat F) : result (mat F) :=
  cur <- getitem2 bwdlattice t i ;;
  a <- getitem3 transmat t i j ;;
  b <- getitem2 bwdlattice (t + 1) j ;;
  c <- getitem2 framelogprob (t + 1) j ;;
  setitem2 bwdlattice t i (fadd cur (fmul (fmul a b) c)).

(** Lines 196-200: the body of the loop over [t]. *)
Definition backward_step (self : IOHMM) (transmat : tensor F) (framelogprob : mat F)
    (t : nat) (bwdlattice : mat F) : result (mat F) :=
  bwdlattice <-
    for_each (range 0 (n_components self))
      (fun i bwdlattice =>
         bwdlattice <- setitem2 bwdlattice t i f0 ;;
         for_each (range 0 (n_components self))
           (backward_accumulate transmat framelogprob t i) bwdlattice)
      bwdlattice ;;
  row <- getitem bwdlattice t ;;
  sfs <- scaling_factors_attr self ;;
  s <- getitem sfs t ;;
  setitem_row bwdlattice t (scale row s).

(** [bwdlattice[T-1]] with [T = 0] is [bwdlattice[-1]] on an array without
    rows and raises [IndexError], as does the lookup of row [0 - 1 = 0]
    here. *)
Definition _do_backward_pass (self : IOHMM) (transmat : tensor F) (framelogprob : mat F)
    : result (mat F) :=
  let T := length framelogprob in
  let bwdlattice := np_ones2 T (n_components self) in
  row <- getitem bwdlattice (T - 1) ;;
  sfs <- scaling_factors_attr self ;;
  s <- getitem sfs (T - 1) ;;
  bwdlattice <- setitem_row bwdlattice (T - 1) (scale row s) ;;
  for_each (range_down (T - 1)) (backward_step self transmat framelogprob) bwdlattice.

(** ** [_compute_sufficient_static] *)

(** Lines 148-150: the transition posterior of the first step. *)
Definition trans_posts_first (self : IOHMM) (transmat : tensor F) (framelogprob bwdlattice : mat F)
    (lpr : F) (trans_posts : tensor F) : result (tensor F) :=
  for_each (range 0 (n_components self))
    (fun i =>
       for_each (range 0 (n_components self))
         (fun j trans_posts =>
            a <- getitem2 framelogprob 0 i ;;
            sp <- startprob_vector self ;;
            b <- getitem sp j ;;
            c <- getitem2 bwdlattice 0 i ;;
            d <- getitem3 transmat 0 j i ;;
            setitem3 trans_posts 0 i j (fdiv (fmul (fmul (fmul a b) c) d) lpr)))
    trans_posts.

(** Lines 152-155: the transition posteriors of the later steps. *)
Definition trans_posts_rest (self : IOHMM) (transmat : tensor F)
    (framelogprob fwdlattice bwdlattice : mat F) (lpr : F) (T : nat) (trans_posts : tensor F)
    : result (tensor F) :=
  for_each (range 1 T)
    (fun t =>
       for_each (range 0 (n_components self))
         (fun i =>
            for_each (range 0 (n_components self))
              (fun j trans_posts =>
                 a <- getitem2 framelogprob t i ;;
                 b <- getitem2 fwdlattice (t - 1) j ;;
                 c <- getitem2 bwdlattice t i ;;
                 d <- getitem3 transmat t j i ;;
                 setitem3 trans_posts t i j (fdiv (fmul (fmul (fmul a b) c) d) lpr))))
    trans_posts.

(** Lines 161-163: the products of the two lattices. *)
Definition state_posts_products (self : IOHMM) (fwdlattice bwdlattice : mat F) (T : nat)
    (state_posts : mat F) : result (mat F) :=
  for_each (range 0 T)
    (fun t =>
       for_each (range 0 (n_components self))
         (fun i state_posts =>
            a <- getitem2 fwdlattice t i ;;
            b <- getitem2 bwdlattice t i ;;
            setitem2 state_posts t i (fmul a b)))
    state_posts.

(** [self.trans_posts] is assigned before the state posteriors are
    computed, so it stays assigned when the second half raises. *)
Definition _compute_sufficient_static (self : IOHMM) (transmat : tensor F)
    (framelogprob fwdlattice bwdlattice : mat F) (lpr : F) : result unit * IOHMM :=
  let T := length framelogprob in
  let n := n_components self in
  match (trans_posts <-
           trans_posts_first self transmat framelogprob bwdlattice lpr (np_tile3 f0 T n n) ;;
         trans_posts_rest self transmat framelogprob fwdlattice bwdlattice lpr T trans_posts) with
  | Raise e => (Raise e, self)
  | Ok trans_posts =>
      let self := set_trans_posts trans_posts self in
      match state_posts_products self fwdlattice bwdlattice T (np_zeros2 T n) with
      | Raise e => (Raise e, self)
      | Ok state_posts => (Ok tt, set_state_posts (div_scalar state_posts lpr) self)
      end
  end.

(** ** [_compute_transmat] *)

(** What the source passes to the builtin [len]. *)
Inductive pyobj : Type :=
| PyArray (a : mat F)
| PyInt (k : nat).

(** The builtin [len] takes exactly one argument, which must have a
    length. *)
Definition len (args : list pyobj) : result nat :=
  match args with
  | [PyArray a] => Ok (length a)
  | _ => Raise TypeError
  end.

(** [X[i] = P] for a matrix [P] assigned to the slice [X[i]], with numpy's
    broadcasting of axes of length one. *)
Definition broadcast_row (m : nat) (row : vec F) : result (vec F) :=
  if decide (length row = m) then Ok row
  else if decide (length row = 1) then Ok (replicate m (default f0 (head row)))
  else Raise ValueError.

Fixpoint broadcast_rows (m : nat) (P : mat F) : result (mat F) :=
  match P with
  | [] => Ok []
  | row :: P' =>
      row' <- broadcast_row m row ;;
      rest <- broadcast_rows m P' ;;
      Ok (row' :: rest)
  end.

Definition setitem_slice (X : tensor F) (i : nat) (P : mat F) : result (tensor F) :=
  old <- getitem X i ;;
  P' <- broadcast_rows (ncols old) P ;;
  if decide (length P' = length old) then Ok (<[i := P']> X)
  else if decide (length P' = 1) then Ok (<[i := replicate (length old) (default [] (head P'))]> X)
  else Raise ValueError.

(** Lines 135-141, the loops of [_compute_transmat].  [u] is the column
    vector of [ins_seq[t]] and [prob] the softmax of the column
    [np.dot(weightMat, u)]; the assignment is to [transmat[i]]. *)
Definition compute_transmat_loops (self : IOHMM) (ins_seq : mat F) (transmat : tensor F)
    : result (tensor F) :=
  for_each (range 0 (length ins_seq))
    (fun t =>
       for_each (range 0 (n_components self))
         (fun i transmat =>
            u <- getitem ins_seq t ;;
            weightMat <- getitem (trans_weight_mat self) i ;;
            d <- np_dot weightMat u ;;
            prob <- extmath_softmax ((fun x => [x]) <$> d) ;;
            setitem_slice transmat i prob))
    transmat.

(** Line 134 is
<<
    transmat = np.tile(0.0, (len(ins_seq, self.n_components, self.n_components)))
>>
    so that all three values are arguments of [len].  The statements after
    it cannot be reached; they are transcribed with the array that the
    closing parenthesis was meant to build, of [reps] matrices. *)
Definition _compute_transmat (self : IOHMM) (ins_seq : mat F) : result (tensor F) :=
  reps <- len [PyArray ins_seq; PyInt (n_components self); PyInt (n_components self)] ;;
  let transmat := np_tile3 f0 reps (n_components self) (n_components self) in
  compute_transmat_loops self ins_seq transmat.

(** ** [fit] *)

(** The methods a subclass supplies.  Each may assign attributes of [self]
    and may raise. *)
Record Hooks : Type := {
  _init : list (mat F) -> string -> IOHMM -> result unit * IOHMM;
  _initialize_sufficient_statistics : IOHMM -> result unit * IOHMM;
  _compute_likelihood : mat F -> mat F -> IOHMM -> result (mat F) * IOHMM;
  _do_mstep : IOHMM -> result unit * IOHMM
}.

(** The base class: [_init], [_initialize_sufficient_statistics] and
    [_do_mstep] are [pass]; [_compute_likelihood] is not defined. *)
Definition base_hooks : Hooks :=
  {| _init := fun _ _ self => (Ok tt, self);
     _initialize_sufficient_statistics := fun self => (Ok tt, self);
     _compute_likelihood := fun _ _ self => (Raise AttributeError, self);
     _do_mstep := fun self => (Ok tt, self) |}.

(** What [fit] has done so far; it is not part of the program's state. *)
Inductive event : Type :=
| EvInit
| EvInitStats
| EvSequence (i : nat)
| EvConvergenceCheck
| EvMStep.

(** The activation of [fit]: [self], the local variables that live across
    statements of different iterations, and the record of events.  The
    variable [i] is shared by the two loops. *)
Record frame : Type := {
  self_ : IOHMM;
  local_i : option nat;
  local_lpr : option F;
  local_logprob : list F;
  trace : list event
}.

Definition enter (self : IOHMM) : frame :=
  {| self_ := self; local_i := None; local_lpr := None; local_logprob := []; trace := [] |}.

Definition tick (e : event) : M frame unit :=
  modify (fun fr => {| self_ := self_ fr; local_i := local_i fr; local_lpr := local_lpr fr;
                       local_logprob := local_logprob fr; trace := trace fr ++ [e] |}).

Definition assign_i (i : nat) : M frame unit :=
  modify (fun fr => {| self_ := self_ fr; local_i := Some i; local_lpr := local_lpr fr;
                       local_logprob := local_logprob fr; trace := trace fr |}).

Definition assign_lpr (x : F) : M frame unit :=
  modify (fun fr => {| self_ := self_ fr; local_i := local_i fr; local_lpr := Some x;
                       local_logprob := local_logprob fr; trace := trace fr |}).

Definition assign_logprob (l : list F) : M frame unit :=
  modify (fun fr => {| self_ := self_ fr; local_i := local_i fr; local_lpr := local_lpr fr;
                       local_logprob := l; trace := trace fr |}).

(** Reading a local variable that was never assigned. *)
Definition read_local {A : Type} (f : frame -> option A) : M frame A :=
  fun fr =>
    match f fr with
    | Some x => (Ok x, fr)
    | None => (Raise UnboundLocalError, fr)
    end.

(** A method of [self] run inside [fit]. *)
Definition on_self {A : Type} (m : IOHMM -> result A * IOHMM) : M frame A :=
  fun fr =>
    let r := m (self_ fr) in
    (r.1, {| self_ := r.2; local_i := local_i fr; local_lpr := local_lpr fr;
             local_logprob := local_logprob fr; trace := trace fr |}).

Definition reading_self {A : Type} (m : IOHMM -> result A) : M frame A :=
  fun fr => (m (self_ fr), fr).

(** The four calls of lines 109-117, each with the number of arguments
    [fit] passes and the number the method accepts. *)
Definition call_compute_transmat (ins_seq : mat F) : M frame (tensor F) :=
  call_method 1 1 (reading_self (fun self => _compute_transmat self ins_seq)).

Definition call_do_forward_pass (transmat : tensor F) (framelogprob ins_seq : mat F)
    : M frame (F * mat F) :=
  call_method 2 3 (on_self (fun self => _do_forward_pass self transmat framelogprob)).

Definition call_do_backward_pass (transmat : tensor F) (framelogprob ins_seq : mat F)
    : M frame (mat F) :=
  call_method 2 3 (reading_self (fun self => _do_backward_pass self transmat framelogprob)).

Definition call_compute_sufficient_static (transmat : tensor F)
    (framelogprob fwdlattice bwdlattice : mat F) (lpr : F) : M frame unit :=
  call_method 5 6
    (on_self (fun self =>
                _compute_sufficient_static self transmat framelogprob fwdlattice bwdlattice lpr)).

(** Lines 106-117: the body of the loop over the sequences. *)
Definition estep_sequence (h : Hooks) (obs : list (mat F)) (i : nat) : M frame unit :=
  tick (EvSequence i) ;;;
  obs_seq <~ lift (getitem obs i) ;;
  ins_seq <~ reading_self (fun self => getitem (ins self) i) ;;
  transmat <~ call_compute_transmat ins_seq ;;
  framelogprob <~ on_self (_compute_likelihood h ins_seq obs_seq) ;;
  r <~ call_do_forward_pass transmat framelogprob ins_seq ;;
  assign_lpr r.1 ;;;
  bwdlattice <~ call_do_backward_pass transmat framelogprob ins_seq ;;
  lpr <~ read_local local_lpr ;;
  call_compute_sufficient_static transmat framelogprob r.2 bwdlattice lpr.

(** Line 119: [i > 0 and logprob[-1] - logprob[-2] < self.thresh]. *)
Definition convergence_check : M frame bool :=
  tick EvConvergenceCheck ;;;
  i <~ read_local local_i ;;
  if decide (0 < i) then
    a <~ (fun fr => (getitem_neg (local_logprob fr) 1, fr)) ;;
    b <~ (fun fr => (getitem_neg (local_logprob fr) 2, fr)) ;;
    th <~ gets (fun fr => thresh (self_ fr)) ;;
    sret (fltb (fsub a b) th)
  else sret false.

(** Lines 118-123: what follows the loop over the sequences; the result
    tells whether the loop over the iterations is left by [break]. *)
Definition em_tail (h : Hooks) : M frame bool :=
  lpr <~ read_local local_lpr ;;
  logprob <~ gets local_logprob ;;
  assign_logprob (logprob ++ [lpr]) ;;;
  stop <~ convergence_check ;;
  if stop then sret true
  else tick EvMStep ;;; on_self (_do_mstep h) ;;; sret false.

(** Lines 101-123: the loop over [range(self.n_iter)].  The value that
    [_initialize_sufficient_statistics] returns is bound to [stats], which
    no later statement reads. *)
Fixpoint em_loop (h : Hooks) (obs : list (mat F)) (iterations : list nat) : M frame unit :=
  match iterations with
  | [] => sret tt
  | k :: rest =>
      assign_i k ;;;
      tick EvInitStats ;;;
      on_self (_initialize_sufficient_statistics h) ;;;
      for_each_M (range 0 (length obs)) (fun i => assign_i i ;;; estep_sequence h obs i) ;;;
      stop <~ em_tail h ;;
      if stop then sret tt else em_loop h obs rest
  end.

Definition fit_body (h : Hooks) (obs : list (mat F)) : M frame unit :=
  tick EvInit ;;;
  ip <~ gets (fun fr => init_params (self_ fr)) ;;
  on_self (_init h obs ip) ;;;
  assign_logprob [] ;;;
  n <~ gets (fun fr => n_iter (self_ fr)) ;;
  em_loop h obs (range 0 (Z.to_nat n)).

(** [self.fit(obs)]: the outcome and the frame at the end. *)
Definition fit (h : Hooks) (self : IOHMM) (obs : list (mat F)) : result unit * frame :=
  fit_body h obs (enter self).

End Model.

Arguments IOHMM F : clear implicits.
Arguments Hooks F : clear implicits.
Arguments frame F : clear implicits.
Arguments pyobj F : clear implicits.

(** ** The arithmetic of Python floats *)

(** IEEE-754 binary64, the arithmetic of Python floats and of numpy's
    float64, as Rocq's primitive floats: division by zero yields an infinity
    or NaN and raises nothing.  The reductions add in index order from zero,
    as numpy does for the short vectors of the examples. *)
#[export] Instance binary64 : Arith float :=
  {| f0 := 0%float; f1 := 1%float;
     fadd := PrimFloat.add; fsub := PrimFloat.sub; fmul := PrimFloat.mul;
     fdiv := PrimFloat.div; fopp := PrimFloat.opp; fltb := PrimFloat.ltb;
     np_sum := fun v => fold_left PrimFloat.add v 0%float;
     np_inner := fun u v => fold_left PrimFloat.add (zip_with PrimFloat.mul u v) 0%float |}.

(** ** Example data

    Two states with a uniform start distribution, uniform transition
    matrices, input sequences of three steps with the constant input [1.0]
    and frame likelihoods all equal to one.  The model is the instance that
    [__init__] builds from two such input sequences. *)

Definition b64_inputs : mat float := [[1%float]; [1%float]; [1%float]].

Definition b64_start : vec float := [0.5%float; 0.5%float].

Definition b64_uniform : mat float := [[0.5%float; 0.5%float]; [0.5%float; 0.5%float]].

Definition b64_model (iterations : Z) : IOHMM float :=
  {| n_components := 2; ins := [b64_inputs; b64_inputs]; n_iter := iterations;
     thresh := 0.5%float; params := ""%string; init_params := ""%string;
     startprob := Some b64_start; algorithm := "viterbi"%string;
     random_state := None; input_dim := 1;
     trans_weight_mat := np_tile3 0.5%float 2 2 2;
     scaling_factors := None; trans_posts := None; state_posts := None |}.

Definition b64_transmat : tensor float := [b64_uniform; b64_uniform; b64_uniform].

Definition b64_framelogprob : mat float := np_ones2 3 2.

(** An observation sequence of three steps. *)
Definition b64_obs : mat float := [[0.5%float]; [1%float]; [0.5%float]].

(** A frame of [fit] just before line 118, with the loop variable [i], the
    trace [logprob] and the likelihood [lpr] as given; the threshold is
    [0.5]. *)
Definition b64_frame (i : nat) (logprob : list float) (lpr : float) : frame float :=
  {| self_ := b64_model 2; local_i := Some i; local_lpr := Some lpr;
     local_logprob := logprob; trace := [] |}.

(** Lattices of one step for two sequences [A] and [B]. *)
Definition b64_fwd_A : mat float := [[0.5%float; 0.5%float]].
Definition b64_fwd_B : mat float := [[0.25%float; 0.75%float]].
Definition b64_ones1 : mat float := np_ones2 1 2.
Definition b64_transmat1 : tensor float := [b64_uniform].

(** The model with the default [startprob = None], and one whose start
    distribution has three entries for two states. *)
Definition b64_model_without_start : IOHMM float :=
  {| n_components := 2; ins := [b64_inputs; b64_inputs]; n_iter := 0;
     thresh := 0.5%float; params := ""%string; init_params := ""%string;
     startprob := None; algorithm := "viterbi"%string;
     random_state := None; input_dim := 1;
     trans_weight_mat := np_tile3 0.5%float 2 2 2;
     scaling_factors := None; trans_posts := None; state_posts := None |}.

Definition b64_model_long_start : IOHMM float :=
  {| n_components := 2; ins := [b64_inputs; b64_inputs]; n_iter := 0;
     thresh := 0.5%float; params := ""%string; init_params := ""%string;
     startprob := Some [0.5%float; 0.25%float; 0.25%float]; algorithm := "viterbi"%string;
     random_state := None; input_dim := 1;
     trans_weight_mat := np_tile3 0.5%float 2 2 2;
     scaling_factors := None; trans_posts := None; state_posts := None |}.

(** Element-wise sum of two matrices. *)
Definition mat_sum {F : Type} `{Arith F} (A B : mat F) : mat F :=
  zip_with (zip_with fadd) A B.

(** ** Vocabulary of the statements *)

Section Vocabulary.

Context {F : Type} `{Arith F}.

(** The unscaled forward vector: entry [i] is the inner product of column
    [i] of [A] with [prev], times [like[i]]; that is [(A^T . prev) * like]
    for [n] states. *)
Definition forward_raw (A : mat F) (prev like : vec F) (n : nat) : vec F :=
  zip_with fmul ((fun i => np_inner (column A i) prev) <$> seq 0 n) like.

(** Row [t] of the forward lattice and entry [t] of the scaling factors are
    the rescaled [forward_raw] of [prev] and the inverse of its sum. *)
Definition forward_row (A : mat F) (n : nat) (framelogprob fwdlattice : mat F)
    (scaling_factors prev : vec F) (t : nat) : Prop :=
  exists like,
    framelogprob !! t = Some like /\
    scaling_factors !! t = Some (fdiv f1 (np_sum (forward_raw A prev like n))) /\
    fwdlattice !! t =
      Some (scale (forward_raw A prev like n) (fdiv f1 (np_sum (forward_raw A prev like n)))).

(** A sum accumulated by a loop: the terms are added in order to a variable
    that starts at zero. *)
Definition sum_in_order (l : vec F) : F := fold_left fadd l f0.

(** The sum over [j] of [transmat[t][i][j] * bwdlattice[t+1][j] * framelogprob[t+1][j]],
    as the loop of line 198 accumulates it. *)
Definition backward_sum (transmat : tensor F) (framelogprob bwdlattice : mat F)
    (n t i : nat) : F :=
  sum_in_order ((fun j => fmul (fmul (at3 transmat t i j) (at2 bwdlattice (t + 1) j))
                         (at2 framelogprob (t + 1) j)) <$> seq 0 n).

End Vocabulary.

(** * Properties *)

(** ** Loops *)

Section Loops.

Context {St : Type}.

(** An ascending loop keeps an invariant indexed by the next value of the
    loop variable. *)
Lemma for_each_up (I : nat -> St -> Prop) (body : nat -> St -> result St) (lo k : nat) (s : St) :
  I lo s ->
  (forall t s1, lo <= t < lo + k -> I t s1 -> exists s2, body t s1 = Ok s2 /\ I (S t) s2) ->
  exists s', for_each (seq lo k) body s = Ok s' /\ I (lo + k) s'.
Proof.
  revert lo s. induction k as [|k IH]; intros lo s HI Hstep; simpl.
  - exists s. rewrite Nat.add_0_r. done.
  - destruct (Hstep lo s) as (s1 & E & HI1); [lia | done |].
    rewrite E. simpl.
    destruct (IH (S lo) s1) as (s2 & E2 & HI2); [done | |].
    + intros t s3 Ht. apply Hstep. lia.
    + exists s2. split; [done|]. by replace (lo + S k) with (S lo + k) by lia.
Qed.

Lemma range_down_S (k : nat) : range_down (S k) = k :: range_down k.
Proof. unfold range_down. by rewrite seq_S, reverse_snoc. Qed.

(** A descending loop from [k - 1] to [0]. *)
Lemma for_each_down (I : nat -> St -> Prop) (body : nat -> St -> result St) (k : nat) (s : St) :
  I k s ->
  (forall t s1, t < k -> I (S t) s1 -> exists s2, body t s1 = Ok s2 /\ I t s2) ->
  exists s', for_each (range_down k) body s = Ok s' /\ I 0 s'.
Proof.
  revert s. induction k as [|k IH]; intros s HI Hstep.
  - exists s. done.
  - rewrite range_down_S. simpl.
    destruct (Hstep k s) as (s1 & E & HI1); [lia | done |].
    rewrite E. simpl. apply IH; [done|].
    intros t s2 Ht. apply Hstep. lia.
Qed.

(** A loop whose iteration [t] writes the cells [W t] of the state with
    values [g] that do not depend on the state leaves [g] in every cell
    written and the other cells as they were. *)
Lemma for_each_fill {K V : Type} (rd : St -> K -> V) (ok : St -> Prop)
    (W : nat -> K -> Prop) (g : K -> V) (body : nat -> St -> result St) (lo k : nat) (s : St) :
  (forall t c, Decision (W t c)) ->
  ok s ->
  (forall t s1, lo <= t < lo + k -> ok s1 ->
     exists s2, body t s1 = Ok s2 /\ ok s2 /\
       forall c, (W t c -> rd s2 c = g c) /\ (~ W t c -> rd s2 c = rd s1 c)) ->
  exists s', for_each (seq lo k) body s = Ok s' /\ ok s' /\
    forall c, ((exists t, lo <= t < lo + k /\ W t c) -> rd s' c = g c) /\
              ((forall t, lo <= t < lo + k -> ~ W t c) -> rd s' c = rd s c).
Proof.
  intros Hdec Hok Hstep.
  destruct (for_each_up
              (fun t s1 => ok s1 /\
                 forall c, ((exists t', lo <= t' < t /\ W t' c) -> rd s1 c = g c) /\
                           ((forall t', lo <= t' < t -> ~ W t' c) -> rd s1 c = rd s c))
              body lo k s) as (s' & E & Hok' & Hc).
  - split; [done|]. intros c. split; [|done]. intros (t' & ? & _). lia.
  - intros t s1 Ht [Hok1 Hc1].
    destruct (Hstep t s1 Ht Hok1) as (s2 & E & Hok2 & Hc2).
    exists s2. split; [done|]. split; [done|]. intros c.
    destruct (Hc1 c) as [Hw Hn]. destruct (Hc2 c) as [Hw2 Hn2].
    destruct (Hdec t c) as [Hy|Hno].
    + split; [intros _; by apply Hw2|].
      intros Hall. exfalso. apply (Hall t); [lia|done].
    + rewrite (Hn2 Hno). split.
      * intros (t' & Ht' & HW). apply Hw. exists t'. split; [|done].
        destruct (decide (t' = t)) as [->|]; [done|lia].
      * intros Hall. apply Hn. intros t' Ht'. apply Hall. lia.
  - exists s'. done.
Qed.

End Loops.

(** ** Arrays *)

Section Arrays.

Context {F : Type} `{Arith F}.

Lemma getitem_lookup {A : Type} (l : list A) (i : nat) (x : A) :
  l !! i = Some x -> getitem l i = Ok x.
Proof. unfold getitem. by intros ->. Qed.

Lemma setitem_lt {A : Type} (l : list A) (i : nat) (x : A) :
  i < length l -> setitem l i x = Ok (<[i := x]> l).
Proof. intros Hi. unfold setitem. by rewrite decide_True. Qed.

Lemma at1_lookup (v : vec F) (i : nat) (x : F) : v !! i = Some x -> at1 v i = x.
Proof. unfold at1. by intros ->. Qed.

Lemma lookup_at1 (v : vec F) (i : nat) : i < length v -> v !! i = Some (at1 v i).
Proof.
  intros Hi. destruct (lookup_lt_is_Some_2 v i Hi) as [x E].
  by rewrite (at1_lookup _ _ _ E).
Qed.

Lemma at2_lookup (M : mat F) (t i : nat) (row : vec F) :
  M !! t = Some row -> at2 M t i = at1 row i.
Proof. unfold at2. by intros ->. Qed.

Lemma at3_lookup (X : tensor F) (t i j : nat) (M : mat F) :
  X !! t = Some M -> at3 X t i j = at2 M i j.
Proof. unfold at3. by intros ->. Qed.

Lemma shape2_lookup (M : mat F) (T n t : nat) :
  shape2 M T n -> t < T -> exists row, M !! t = Some row /\ length row = n.
Proof.
  intros [HT Hrows] Ht.
  destruct (lookup_lt_is_Some_2 M t) as [row E]; [lia|].
  exists row. split; [done|]. by apply (Forall_lookup_1 _ _ _ _ Hrows E).
Qed.

Lemma shape2_insert (M : mat F) (T n t : nat) (row : vec F) :
  shape2 M T n -> length row = n -> shape2 (<[t := row]> M) T n.
Proof.
  intros [HT Hrows] Hrow. split; [by rewrite length_insert|].
  by apply Forall_insert.
Qed.

Lemma shape2_replicate (T n : nat) (x : F) : shape2 (replicate T (replicate n x)) T n.
Proof.
  split; [by rewrite length_replicate|].
  apply Forall_replicate. by rewrite length_replicate.
Qed.

Lemma shape3_lookup (X : tensor F) (T n m t : nat) :
  shape3 X T n m -> t < T -> exists M, X !! t = Some M /\ shape2 M n m.
Proof.
  intros [HT Hs] Ht.
  destruct (lookup_lt_is_Some_2 X t) as [M E]; [lia|].
  exists M. split; [done|]. by apply (Forall_lookup_1 _ _ _ _ Hs E).
Qed.

Lemma shape3_insert (X : tensor F) (T n m t : nat) (M : mat F) :
  shape3 X T n m -> shape2 M n m -> shape3 (<[t := M]> X) T n m.
Proof.
  intros [HT Hs] HM. split; [by rewrite length_insert|].
  by apply Forall_insert.
Qed.

Lemma shape3_replicate (T n m : nat) (x : F) : shape3 (np_tile3 x T n m) T n m.
Proof.
  split; [by unfold np_tile3; rewrite length_replicate|].
  apply Forall_replicate, shape2_replicate.
Qed.

Lemma getitem2_at (M : mat F) (T n t i : nat) :
  shape2 M T n -> t < T -> i < n -> getitem2 M t i = Ok (at2 M t i).
Proof.
  intros HM Ht Hi. destruct (shape2_lookup M T n t HM Ht) as (row & E & Hrow).
  unfold getitem2. rewrite (getitem_lookup _ _ _ E). simpl.
  rewrite (at2_lookup _ _ _ _ E). apply getitem_lookup, lookup_at1. lia.
Qed.

Lemma getitem3_at (X : tensor F) (T n m t i j : nat) :
  shape3 X T n m -> t < T -> i < n -> j < m -> getitem3 X t i j = Ok (at3 X t i j).
Proof.
  intros HX Ht Hi Hj. destruct (shape3_lookup X T n m t HX Ht) as (M & E & HM).
  unfold getitem3. rewrite (getitem_lookup _ _ _ E). simpl.
  rewrite (at3_lookup _ _ _ _ _ E). by apply (getitem2_at M n m).
Qed.

(** Writing one cell of a matrix. *)
Lemma setitem2_at (M : mat F) (T n t i : nat) (x : F) :
  shape2 M T n -> t < T -> i < n ->
  exists M', setitem2 M t i x = Ok M' /\ shape2 M' T n /\
    (forall t', t' <> t -> M' !! t' = M !! t') /\
    at2 M' t i = x /\
    (forall t' i', (t', i') <> (t, i) -> at2 M' t' i' = at2 M t' i').
Proof.
  intros HM Ht Hi. destruct (shape2_lookup M T n t HM Ht) as (row & E & Hrow).
  exists (<[t := <[i := x]> row]> M).
  assert (Hlen : t < length M) by (destruct HM; lia).
  split; [|split; [|split; [|split]]].
  - unfold setitem2. rewrite (getitem_lookup _ _ _ E). simpl.
    rewrite setitem_lt by lia. reflexivity.
  - apply shape2_insert; [done|]. by rewrite length_insert.
  - intros t' Hne. by rewrite list_lookup_insert_ne.
  - rewrite (at2_lookup _ t i (<[i := x]> row)) by (by apply list_lookup_insert_eq).
    apply at1_lookup, list_lookup_insert_eq. lia.
  - intros t' i' Hne. destruct (decide (t' = t)) as [->|Hnt].
    + rewrite (at2_lookup _ t i' (<[i := x]> row)) by (by apply list_lookup_insert_eq).
      rewrite (at2_lookup _ _ _ _ E). unfold at1.
      rewrite list_lookup_insert_ne; [done|]. intros ->. by apply Hne.
    + unfold at2. by rewrite list_lookup_insert_ne.
Qed.

(** Writing one cell of an array of matrices. *)
Lemma setitem3_at (X : tensor F) (T n m t i j : nat) (x : F) :
  shape3 X T n m -> t < T -> i < n -> j < m ->
  exists X', setitem3 X t i j x = Ok X' /\ shape3 X' T n m /\
    at3 X' t i j = x /\
    (forall t' i' j', (t', i', j') <> (t, i, j) -> at3 X' t' i' j' = at3 X t' i' j').
Proof.
  intros HX Ht Hi Hj. destruct (shape3_lookup X T n m t HX Ht) as (M & E & HM).
  destruct (setitem2_at M n m i j x HM Hi Hj) as (M' & E' & HM' & _ & Hat & Hother).
  exists (<[t := M']> X).
  assert (Hlen : t < length X) by (destruct HX; lia).
  split; [|split; [|split]].
  - unfold setitem3. rewrite (getitem_lookup _ _ _ E). simpl. by rewrite E'.
  - by apply shape3_insert.
  - by rewrite (at3_lookup _ t i j M') by (by apply list_lookup_insert_eq).
  - intros t' i' j' Hne. destruct (decide (t' = t)) as [->|Hnt].
    + rewrite (at3_lookup _ t i' j' M') by (by apply list_lookup_insert_eq).
      rewrite (at3_lookup _ _ _ _ _ E). apply Hother. intros [= -> ->]. by apply Hne.
    + unfold at3. by rewrite list_lookup_insert_ne.
Qed.

(** Assigning a row of the right length. *)
Lemma setitem_row_eq (M : mat F) (T n t : nat) (v : vec F) :
  shape2 M T n -> t < T -> length v = n -> setitem_row M t v = Ok (<[t := v]> M).
Proof.
  intros HM Ht Hv. destruct (shape2_lookup M T n t HM Ht) as (row & E & Hrow).
  unfold setitem_row. rewrite (getitem_lookup _ _ _ E). simpl.
  rewrite decide_True by lia. reflexivity.
Qed.

Lemma length_scale (v : vec F) (s : F) : length (scale v s) = length v.
Proof. unfold scale. by rewrite length_fmap. Qed.

Lemma at1_scale (v : vec F) (s : F) (i : nat) :
  i < length v -> at1 (scale v s) i = fmul (at1 v i) s.
Proof.
  intros Hi. apply at1_lookup. unfold scale.
  by rewrite list_lookup_fmap, (lookup_at1 v i Hi).
Qed.

(** The transpose of an [n] by [n] matrix has [n] rows of length [n]. *)
Lemma ncols_shape (A : mat F) (n : nat) : shape2 A n n -> ncols A = n.
Proof.
  intros [Hn Hrows]. unfold ncols. destruct A as [|row A]; simpl in *; [done|].
  by inversion Hrows.
Qed.

Lemma np_dot_transpose (A : mat F) (n : nat) (v : vec F) :
  shape2 A n n -> length v = n ->
  np_dot (transpose A) v = Ok ((fun i => np_inner (column A i) v) <$> seq 0 n).
Proof.
  intros HA Hv. unfold np_dot, transpose. rewrite (ncols_shape A n HA).
  rewrite decide_True.
  - f_equal. by rewrite <- list_fmap_compose.
  - apply Forall_fmap, Forall_forall. intros i _. simpl.
    unfold column. rewrite length_fmap. destruct HA. lia.
Qed.

End Arrays.

(** ** The forward pass *)

Section Forward.

Context {F : Type} `{Arith F}.

Lemma for_each_ext {St : Type} (l : list nat) (body1 body2 : nat -> St -> result St) (s : St) :
  (forall t s1, body1 t s1 = body2 t s1) -> for_each l body1 s = for_each l body2 s.
Proof.
  intros Hext. revert s. induction l as [|t l IH]; intros s; simpl; [reflexivity|].
  rewrite Hext. destruct (body2 t s); simpl; [apply IH | reflexivity].
Qed.

Lemma length_forward_raw (A : mat F) (prev like : vec F) (n : nat) :
  length like = n -> length (forward_raw A prev like n) = n.
Proof.
  intros Hl. unfold forward_raw.
  rewrite length_zip_with, length_fmap, length_seq. lia.
Qed.

(** One assignment of a row and its scaling factor. *)
Lemma forward_update_ok (transmat : tensor F) (framelogprob : mat F)
    (prev : mat F -> result (vec F)) (t T n : nat) (fwd : mat F) (sfs : vec F)
    (tm0 : mat F) (p like : vec F) :
  transmat !! 0 = Some tm0 -> shape2 tm0 n n ->
  shape2 fwd T n -> length sfs = T -> t < T ->
  prev fwd = Ok p -> length p = n ->
  framelogprob !! t = Some like -> length like = n ->
  forward_update transmat framelogprob prev t (fwd, sfs) =
    Ok (<[t := scale (forward_raw tm0 p like n) (fdiv f1 (np_sum (forward_raw tm0 p like n)))]> fwd,
        <[t := fdiv f1 (np_sum (forward_raw tm0 p like n))]> sfs).
Proof.
  intros Htm Hsh Hfwd Hsfs Ht Hprev Hp Hlike Hll.
  pose proof (length_forward_raw tm0 p like n Hll) as Hraw.
  assert (Htl : t < length fwd) by (destruct Hfwd; lia).
  unfold forward_update. simpl.
  rewrite (getitem_lookup _ _ _ Htm). simpl.
  rewrite Hprev. simpl.
  rewrite (np_dot_transpose tm0 n p Hsh Hp). simpl.
  rewrite (getitem_lookup _ _ _ Hlike). simpl.
  unfold np_mul. rewrite decide_True by (by rewrite length_fmap, length_seq, Hll).
  simpl. fold (forward_raw tm0 p like n).
  rewrite (setitem_row_eq fwd T n t _ Hfwd Ht Hraw). simpl.
  rewrite (getitem_lookup (<[t := forward_raw tm0 p like n]> fwd) t (forward_raw tm0 p like n))
    by (by apply list_lookup_insert_eq).
  simpl. rewrite setitem_lt by lia. simpl.
  rewrite (getitem_lookup (<[t := fdiv f1 (np_sum (forward_raw tm0 p like n))]> sfs) t
             (fdiv f1 (np_sum (forward_raw tm0 p like n))))
    by (apply list_lookup_insert_eq; lia).
  simpl.
  rewrite (setitem_row_eq _ T n t (scale (forward_raw tm0 p like n) _)).
  - by rewrite list_insert_insert_eq.
  - by apply shape2_insert.
  - done.
  - by rewrite length_scale.
Qed.

(** The whole lattice: it is computed for every well-shaped input, and each
    row obeys the recursion with the matrix [transmat[0]]. *)
Lemma forward_lattice_spec (self : IOHMM F) (transmat : tensor F)
    (framelogprob : mat F) (T n : nat) (sp : vec F) (tm0 : mat F) :
  n_components self = n -> startprob self = Some sp -> length sp = n ->
  transmat !! 0 = Some tm0 -> shape2 tm0 n n ->
  shape2 framelogprob T n -> 1 <= T ->
  exists fwd sfs,
    forward_lattice self transmat framelogprob = Ok (fwd, sfs) /\
    shape2 fwd T n /\ length sfs = T /\
    forward_row tm0 n framelogprob fwd sfs sp 0 /\
    forall t, 1 <= t < T ->
      exists prev, fwd !! (t - 1) = Some prev /\ forward_row tm0 n framelogprob fwd sfs prev t.
Proof.
  intros Hn Hsp Hspl Htm Hsh Hflp HT.
  destruct (shape2_lookup framelogprob T n 0 Hflp) as (like0 & Hl0 & Hll0); [lia|].
  unfold forward_lattice. rewrite Hn. destruct Hflp as [HlenT Hrows]. rewrite HlenT.
  rewrite (forward_update_ok transmat framelogprob _ 0 T n _ _ tm0 sp like0);
    try done; try lia.
  2: apply shape2_replicate.
  2: by unfold np_zeros; rewrite length_replicate.
  2: by unfold startprob_vector; rewrite Hsp.
  simpl.
  set (raw0 := forward_raw tm0 sp like0 n).
  set (fwd0 := <[0 := scale raw0 (fdiv f1 (np_sum raw0))]> (np_zeros2 T n)).
  set (sfs0 := <[0 := fdiv f1 (np_sum raw0)]> (np_zeros T)).
  assert (Hfwd0 : shape2 fwd0 T n).
  { apply shape2_insert; [apply shape2_replicate|].
    rewrite length_scale. by apply length_forward_raw. }
  assert (Hsfs0 : length sfs0 = T).
  { unfold sfs0, np_zeros. by rewrite length_insert, length_replicate. }
  destruct (for_each_up
    (fun t (st : mat F * vec F) =>
       shape2 st.1 T n /\ length st.2 = T /\
       forward_row tm0 n framelogprob st.1 st.2 sp 0 /\
       forall t', 1 <= t' < t ->
         exists prev, st.1 !! (t' - 1) = Some prev /\
                      forward_row tm0 n framelogprob st.1 st.2 prev t')
    (fun t => forward_update transmat framelogprob (fun fwd => getitem fwd (t - 1)) t)
    1 (T - 1) (fwd0, sfs0)) as ([fwd sfs] & E & Hfwd & Hsfs & Hz & Hrec).
  - simpl. split; [done|]. split; [done|]. split; [|intros; lia].
    exists like0. split; [done|]. fold raw0. split.
    + unfold sfs0, np_zeros. apply list_lookup_insert_eq. rewrite length_replicate. lia.
    + unfold fwd0, np_zeros2. apply list_lookup_insert_eq. rewrite length_replicate. lia.
  - intros t [fwd sfs] Ht (Hfwd & Hsfs & Hz & Hrec). simpl in *.
    destruct (shape2_lookup fwd T n (t - 1) Hfwd) as (prev & Hprev & Hpl); [lia|].
    destruct (shape2_lookup framelogprob T n t (conj HlenT Hrows)) as (like & Hlike & Hll);
      [lia|].
    eexists. split.
    + apply (forward_update_ok transmat framelogprob _ t T n fwd sfs tm0 prev like);
        try done; try lia.
      by apply getitem_lookup.
    + simpl. set (raw := forward_raw tm0 prev like n).
      split; [|split; [|split]].
      * apply shape2_insert; [done|]. rewrite length_scale. by apply length_forward_raw.
      * by rewrite length_insert.
      * destruct Hz as (l0 & ? & ? & ?). exists l0.
        rewrite !list_lookup_insert_ne by lia. done.
      * intros t' Ht'. destruct (decide (t' = t)) as [->|Hne].
        -- exists prev. split; [by rewrite list_lookup_insert_ne by lia|].
           exists like. split; [done|]. fold raw.
           assert (t < length fwd) by (destruct Hfwd; lia).
           split; apply list_lookup_insert_eq; lia.
        -- destruct (Hrec t') as (prev' & Hp' & like' & ? & ? & ?); [lia|].
           exists prev'. split; [by rewrite list_lookup_insert_ne by lia|].
           exists like'. rewrite !list_lookup_insert_ne by lia. done.
  - exists fwd, sfs. simpl in *. unfold range.
    split; [exact E|]. split; [done|]. split; [done|]. split; [done|].
    intros t Ht. apply Hrec. lia.
Qed.

End Forward.

(** ** The identities of [ArithLaws] in binary64

    A product with a finite factor is the exact product of the mantissas,
    rounded.  When one factor is [1] or [-1] the exact product is the other
    factor shifted by 52 bits, which rounding gives back. *)

Lemma fexp_canonical (m : positive) (e : Z) :
  bounded prec emax m e = true ->
  fexp prec emax (Zpos (digits2_pos m) + e) = e /\ (e <=? emax - prec)%Z = true.
Proof.
  unfold bounded, canonical_mantissa. intros Hb.
  apply andb_prop in Hb. destruct Hb as [Hc Hl].
  apply Z.eqb_eq in Hc. split; assumption.
Qed.

Lemma shr_fexp_exact (m : positive) (e : Z) :
  bounded prec emax m e = true ->
  shr_fexp prec emax (Zpos m) e loc_Exact = (Build_shr_record (Zpos m) false false, e).
Proof.
  intros Hb. destruct (fexp_canonical m e Hb) as [Hc _].
  unfold shr_fexp. simpl Zdigits2. rewrite Hc, Z.sub_diag. reflexivity.
Qed.

Lemma digits_shift52 (m : positive) :
  Zpos (digits2_pos (Pos.mul 4503599627370496 m)) = (Zpos (digits2_pos m) + 52)%Z.
Proof. cbv [Pos.mul digits2_pos]. rewrite !Pos2Z.inj_succ. lia. Qed.

Lemma shr_fexp_shift52 (m : positive) (e : Z) :
  bounded prec emax m e = true ->
  shr_fexp prec emax (Zpos (Pos.mul 4503599627370496 m)) (-52 + e) loc_Exact =
    (Build_shr_record (Zpos m) false false, (-52 + e + 52)%Z).
Proof.
  intros Hb. destruct (fexp_canonical m e Hb) as [Hc _].
  unfold shr_fexp. unfold Zdigits2. rewrite digits_shift52.
  replace (Zpos (digits2_pos m) + 52 + (-52 + e))%Z with (Zpos (digits2_pos m) + e)%Z by lia.
  rewrite Hc. replace (e - (-52 + e))%Z with 52%Z by lia.
  unfold shr. f_equal.
Qed.

Lemma round_mul_one (s : bool) (m : positive) (e : Z) :
  bounded prec emax m e = true ->
  binary_round_aux prec emax s (Zpos (Pos.mul 4503599627370496 m)) (-52 + e) loc_Exact =
    S754_finite s m e.
Proof.
  intros Hb. unfold binary_round_aux.
  rewrite (shr_fexp_shift52 m e Hb).
  cbn [shr_m loc_of_shr_record round_nearest_even].
  replace (-52 + e + 52)%Z with e by lia.
  rewrite (shr_fexp_exact m e Hb).
  cbn [shr_m]. destruct (fexp_canonical m e Hb) as [_ Hl]. rewrite Hl. reflexivity.
Qed.

Lemma SFmul_one_l (x : spec_float) :
  valid_binary x = true ->
  SFmul prec emax (S754_finite false 4503599627370496 (-52)) x = x.
Proof.
  destruct x as [s|s| |s m e]; intros Hv; try reflexivity.
  unfold SFmul. apply round_mul_one. exact Hv.
Qed.

Lemma SFmul_minus_one_l (x : spec_float) :
  valid_binary x = true ->
  SFmul prec emax (S754_finite true 4503599627370496 (-52)) x = SFopp x.
Proof.
  destruct x as [s|s| |s m e]; intros Hv; try reflexivity.
  unfold SFmul, SFopp. cbn [xorb]. apply round_mul_one. exact Hv.
Qed.

Lemma SFmul_comm (x y : spec_float) : SFmul prec emax x y = SFmul prec emax y x.
Proof.
  destruct x as [sx|sx| |sx mx ex], y as [sy|sy| |sy my ey]; simpl;
    try reflexivity; try (rewrite xorb_comm; reflexivity).
  rewrite xorb_comm, Pos.mul_comm, Z.add_comm. reflexivity.
Qed.

#[export] Instance binary64_laws : ArithLaws float.
Proof.
  split.
  - intros x. apply Prim2SF_inj. unfold fmul, f1, binary64.
    rewrite mul_spec. exact (SFmul_one_l _ (Prim2SF_valid x)).
  - intros x. apply Prim2SF_inj. unfold fmul, fopp, f1, binary64.
    rewrite mul_spec, !opp_spec. exact (SFmul_minus_one_l _ (Prim2SF_valid x)).
  - intros x y. apply Prim2SF_inj. unfold fmul, binary64.
    rewrite !mul_spec. apply SFmul_comm.
Qed.

Section ForwardStatements.

Context {F : Type} `{Arith F} `{!ArithLaws F} `{Transcendental F}.

(** C1.  For a likelihood matrix of [T >= 1] rows, the scaled forward pass
    returns; [scaling_factors[0]] is [1 / sum(raw)] and [fwdlattice[0]] is
    [raw] rescaled by that factor, where [raw] is the element-wise product
    of ([transmat[0]] transposed times [startprob]) with [framelogprob[0]];
    the returned likelihood is [exp(- sum_t log(scaling_factors[t]))] over
    the factors the pass stores in [self]. *)
Theorem forward_pass_initial_step_and_likelihood (self : IOHMM F) (transmat : tensor F)
    (framelogprob : mat F) (T n : nat) (sp : vec F) (tm0 : mat F) :
  n_components self = n -> startprob self = Some sp -> length sp = n ->
  transmat !! 0 = Some tm0 -> shape2 tm0 n n ->
  shape2 framelogprob T n -> 1 <= T ->
  exists likelihood fwdlattice sfs like0,
    _do_forward_pass self transmat framelogprob =
      (Ok (likelihood, fwdlattice), set_scaling_factors sfs self) /\
    length fwdlattice = T /\ length sfs = T /\
    framelogprob !! 0 = Some like0 /\
    sfs !! 0 = Some (fdiv f1 (np_sum (forward_raw tm0 sp like0 n))) /\
    fwdlattice !! 0 =
      Some (scale (forward_raw tm0 sp like0 n) (fdiv f1 (np_sum (forward_raw tm0 sp like0 n)))) /\
    likelihood = np_exp (fopp (np_sum (np_log <$> sfs))).
Proof.
  intros Hn Hsp Hspl Htm Hsh Hflp HT.
  destruct (forward_lattice_spec self transmat framelogprob T n sp tm0)
    as (fwd & sfs & E & Hfwd & Hsfs & (like0 & Hl0 & Hs0 & Hf0) & _); try done.
  exists (np_exp (fopp (np_sum (np_log <$> sfs)))), fwd, sfs, like0.
  unfold _do_forward_pass. rewrite E. rewrite fmul_m1_l.
  destruct Hfwd as [Hlen _]. done.
Qed.

(** C2.  For every later step [t], [scaling_factors[t]] and [fwdlattice[t]]
    are obtained from the element-wise product of ([transmat[0]] transposed
    times [fwdlattice[t-1]]) with [framelogprob[t]], rescaled by the inverse
    of its sum.  The matrix is [transmat[0]] at every step: the pass returns
    the same for every tensor with the same first matrix. *)
Theorem forward_pass_recursion_reuses_first_matrix (self : IOHMM F) (transmat : tensor F)
    (framelogprob : mat F) (T n : nat) (sp : vec F) (tm0 : mat F) :
  n_components self = n -> startprob self = Some sp -> length sp = n ->
  transmat !! 0 = Some tm0 -> shape2 tm0 n n ->
  shape2 framelogprob T n -> 1 <= T ->
  (exists likelihood fwdlattice sfs,
     _do_forward_pass self transmat framelogprob =
       (Ok (likelihood, fwdlattice), set_scaling_factors sfs self) /\
     forall t, 1 <= t < T ->
       exists prev like,
         fwdlattice !! (t - 1) = Some prev /\
         framelogprob !! t = Some like /\
         sfs !! t = Some (fdiv f1 (np_sum (forward_raw tm0 prev like n))) /\
         fwdlattice !! t =
           Some (scale (forward_raw tm0 prev like n)
                   (fdiv f1 (np_sum (forward_raw tm0 prev like n))))) /\
  (forall transmat' : tensor F,
     transmat' !! 0 = Some tm0 ->
     _do_forward_pass self transmat' framelogprob = _do_forward_pass self transmat framelogprob).
Proof.
  intros Hn Hsp Hspl Htm Hsh Hflp HT. split.
  - destruct (forward_lattice_spec self transmat framelogprob T n sp tm0)
      as (fwd & sfs & E & Hfwd & Hsfs & _ & Hrec); try done.
    eexists _, fwd, sfs. split.
    + unfold _do_forward_pass. rewrite E. reflexivity.
    + intros t Ht. destruct (Hrec t Ht) as (prev & Hprev & like & Hlike & Hs & Hf).
      by exists prev, like.
  - intros transmat' Htm'.
    assert (Hupd : forall prev t st,
               forward_update transmat' framelogprob prev t st =
               forward_update transmat framelogprob prev t st).
    { intros prev t st. unfold forward_update.
      by rewrite (getitem_lookup _ _ _ Htm), (getitem_lookup _ _ _ Htm'). }
    unfold _do_forward_pass, forward_lattice. rewrite Hupd.
    destruct (forward_update transmat framelogprob _ 0 _) as [st|e]; simpl; [|reflexivity].
    rewrite (for_each_ext _ _ _ st (fun t s1 => Hupd _ t s1)). reflexivity.
Qed.

End ForwardStatements.

Lemma forward_pass_initial_step_and_likelihood_witness :
  (n_components (b64_model 0) = 2 /\ startprob (b64_model 0) = Some b64_start /\
   length b64_start = 2 /\
   b64_transmat !! 0 = Some b64_uniform /\ shape2 b64_uniform 2 2 /\
   shape2 b64_framelogprob 3 2 /\ 1 <= 3) /\
  forall TR : Transcendental float,
  exists likelihood fwdlattice sfs like0,
    _do_forward_pass (b64_model 0) b64_transmat b64_framelogprob =
      (Ok (likelihood, fwdlattice), set_scaling_factors sfs (b64_model 0)) /\
    length fwdlattice = 3 /\ length sfs = 3 /\
    b64_framelogprob !! 0 = Some like0 /\
    sfs !! 0 = Some (fdiv f1 (np_sum (forward_raw b64_uniform b64_start like0 2))) /\
    fwdlattice !! 0 =
      Some (scale (forward_raw b64_uniform b64_start like0 2)
              (fdiv f1 (np_sum (forward_raw b64_uniform b64_start like0 2)))) /\
    likelihood = np_exp (fopp (np_sum (np_log <$> sfs))).
Proof.
  assert (Hhyp : n_components (b64_model 0) = 2 /\ startprob (b64_model 0) = Some b64_start /\
   length b64_start = 2 /\
   b64_transmat !! 0 = Some b64_uniform /\ shape2 b64_uniform 2 2 /\
   shape2 b64_framelogprob 3 2 /\ 1 <= 3).
  { repeat split; try reflexivity; try lia; repeat constructor. }
  split; [exact Hhyp|].
  destruct Hhyp as (h1 & h2 & h3 & h4 & h5 & h6 & h7). intros TR.
  exact (forward_pass_initial_step_and_likelihood
           (b64_model 0) b64_transmat b64_framelogprob 3 2 b64_start b64_uniform
           h1 h2 h3 h4 h5 h6 h7).
Defined.

Lemma forward_pass_recursion_reuses_first_matrix_witness :
  (n_components (b64_model 0) = 2 /\ startprob (b64_model 0) = Some b64_start /\
   length b64_start = 2 /\
   b64_transmat !! 0 = Some b64_uniform /\ shape2 b64_uniform 2 2 /\
   shape2 b64_framelogprob 3 2 /\ 1 <= 3) /\
  forall TR : Transcendental float,
  (exists likelihood fwdlattice sfs,
     _do_forward_pass (b64_model 0) b64_transmat b64_framelogprob =
       (Ok (likelihood, fwdlattice), set_scaling_factors sfs (b64_model 0)) /\
     forall t, 1 <= t < 3 ->
       exists prev like,
         fwdlattice !! (t - 1) = Some prev /\
         b64_framelogprob !! t = Some like /\
         sfs !! t = Some (fdiv f1 (np_sum (forward_raw b64_uniform prev like 2))) /\
         fwdlattice !! t =
           Some (scale (forward_raw b64_uniform prev like 2)
                   (fdiv f1 (np_sum (forward_raw b64_uniform prev like 2))))) /\
  (forall transmat' : tensor float,
     transmat' !! 0 = Some b64_uniform ->
     _do_forward_pass (b64_model 0) transmat' b64_framelogprob =
     _do_forward_pass (b64_model 0) b64_transmat b64_framelogprob).
Proof.
  assert (Hhyp : n_components (b64_model 0) = 2 /\ startprob (b64_model 0) = Some b64_start /\
   length b64_start = 2 /\
   b64_transmat !! 0 = Some b64_uniform /\ shape2 b64_uniform 2 2 /\
   shape2 b64_framelogprob 3 2 /\ 1 <= 3).
  { repeat split; try reflexivity; try lia; repeat constructor. }
  split; [exact Hhyp|].
  destruct Hhyp as (h1 & h2 & h3 & h4 & h5 & h6 & h7). intros TR.
  exact (forward_pass_recursion_reuses_first_matrix
           (b64_model 0) b64_transmat b64_framelogprob 3 2 b64_start b64_uniform
           h1 h2 h3 h4 h5 h6 h7).
Defined.

(** ** The backward pass *)

Section Backward.

Context {F : Type} `{Arith F}.

Lemma range_0 (n : nat) : range 0 n = seq 0 n.
Proof. unfold range. by rewrite Nat.sub_0_r. Qed.

Lemma sum_in_order_snoc (l : vec F) (x : F) :
  sum_in_order (l ++ [x]) = fadd (sum_in_order l) x.
Proof. unfold sum_in_order. by rewrite fold_left_app. Qed.

Lemma at2_row_eq (M M' : mat F) (t i : nat) : M' !! t = M !! t -> at2 M' t i = at2 M t i.
Proof. unfold at2. by intros ->. Qed.

Lemma backward_sum_row (transmat : tensor F) (framelogprob B B' : mat F) (n t i : nat) :
  B' !! (t + 1) = B !! (t + 1) ->
  backward_sum transmat framelogprob B' n t i = backward_sum transmat framelogprob B n t i.
Proof.
  intros E. unfold backward_sum. f_equal. apply list_fmap_ext. intros _ j _.
  by rewrite (at2_row_eq B B' (t + 1) j E).
Qed.

(** Lines 197-199 for one state [i]: the cell is set to zero and the terms
    are added to it in the order of [j]. *)
Lemma backward_cell (transmat : tensor F) (framelogprob : mat F) (Tm T n t i : nat) (B : mat F) :
  shape3 transmat Tm n n -> t < Tm ->
  shape2 framelogprob T n -> shape2 B T n -> t + 1 < T -> i < n ->
  exists B',
    (B1 <- setitem2 B t i f0 ;;
     for_each (range 0 n) (backward_accumulate transmat framelogprob t i) B1) = Ok B' /\
    shape2 B' T n /\
    (forall t', t' <> t -> B' !! t' = B !! t') /\
    at2 B' t i = backward_sum transmat framelogprob B n t i /\
    (forall i', i' <> i -> at2 B' t i' = at2 B t i').
Proof.
  intros Htm Ht Hflp HB Ht1 Hi.
  destruct (setitem2_at B T n t i f0 HB) as (B1 & E1 & HB1 & Hrows1 & Hat1 & Hoth1);
    [lia | done |].
  rewrite E1. simpl.
  set (term := fun j => fmul (fmul (at3 transmat t i j) (at2 B (t + 1) j))
                             (at2 framelogprob (t + 1) j)).
  destruct (for_each_up
    (fun j (B' : mat F) =>
       shape2 B' T n /\
       (forall t', t' <> t -> B' !! t' = B !! t') /\
       at2 B' t i = sum_in_order (term <$> seq 0 j) /\
       (forall i', i' <> i -> at2 B' t i' = at2 B t i'))
    (backward_accumulate transmat framelogprob t i) 0 n B1) as (B' & E & HB' & Hr & Hc & Ho).
  - split; [done|]. split; [done|]. split; [done|].
    intros i' Hne. apply Hoth1. intros [= ?]. done.
  - intros j B2 Hj (HB2 & Hr2 & Hc2 & Ho2).
    destruct (setitem2_at B2 T n t i (fadd (at2 B2 t i) (term j)) HB2)
      as (B3 & E3 & HB3 & Hr3 & Hc3 & Ho3); [lia | done |].
    exists B3. split.
    + unfold backward_accumulate.
      rewrite (getitem2_at B2 T n t i) by (done || lia). simpl.
      rewrite (getitem3_at transmat Tm n n t i j) by (done || lia). simpl.
      rewrite (getitem2_at B2 T n (t + 1) j) by (done || lia). simpl.
      rewrite (getitem2_at framelogprob T n (t + 1) j) by (done || lia). simpl.
      rewrite (at2_row_eq B B2 (t + 1) j) by (apply Hr2; lia).
      exact E3.
    + split; [done|]. split; [|split].
      * intros t' Hne. rewrite Hr3 by done. by apply Hr2.
      * rewrite Hc3, Hc2, seq_S, fmap_app. simpl. by rewrite sum_in_order_snoc.
      * intros i' Hne. rewrite Ho3 by (intros [= ?]; done). by apply Ho2.
  - exists B'. unfold range. rewrite Nat.sub_0_r. split; [exact E|].
    split; [done|]. split; [done|]. split; [|done].
    rewrite Hc. reflexivity.
Qed.

(** Lines 196-200 for one step [t]: row [t] becomes the sums over the next
    row, times [scaling_factors[t]]; the other rows stay. *)
Lemma backward_step_spec (self : IOHMM F) (transmat : tensor F) (framelogprob : mat F)
    (Tm T n t : nat) (sfs : vec F) (B : mat F) :
  n_components self = n -> scaling_factors self = Some sfs -> T <= length sfs ->
  shape3 transmat Tm n n -> t < Tm ->
  shape2 framelogprob T n -> shape2 B T n -> t + 1 < T ->
  exists B',
    backward_step self transmat framelogprob t B = Ok B' /\
    shape2 B' T n /\
    (forall t', t' <> t -> B' !! t' = B !! t') /\
    forall i, i < n ->
      at2 B' t i = fmul (backward_sum transmat framelogprob B n t i) (at1 sfs t).
Proof.
  intros Hn Hsf Hsfl Htm Ht Hflp HB Ht1.
  unfold backward_step. rewrite Hn.
  destruct (for_each_fill
    (fun (B' : mat F) (i : nat) => at2 B' t i)
    (fun B' => shape2 B' T n /\ forall t', t' <> t -> B' !! t' = B !! t')
    (fun i c => c = i)
    (fun i => backward_sum transmat framelogprob B n t i)
    (fun i bwdlattice =>
       bwdlattice <- setitem2 bwdlattice t i f0 ;;
       for_each (range 0 n) (backward_accumulate transmat framelogprob t i) bwdlattice)
    0 n B) as (B1 & E1 & [HB1 Hr1] & Hc1).
  - intros i c. apply _.
  - done.
  - intros i B2 Hi [HB2 Hr2].
    destruct (backward_cell transmat framelogprob Tm T n t i B2)
      as (B3 & E3 & HB3 & Hr3 & Hc3 & Ho3); try done; try lia.
    exists B3. split; [exact E3|]. split.
    + split; [done|]. intros t' Hne. rewrite Hr3 by done. by apply Hr2.
    + intros c. split.
      * intros ->. rewrite Hc3. apply backward_sum_row, Hr2. lia.
      * intros Hne. by apply Ho3.
  - rewrite <- (range_0 n) in E1. rewrite E1. simpl.
    destruct (shape2_lookup B1 T n t HB1) as (row & Erow & Hrow); [lia|].
    rewrite (getitem_lookup _ _ _ Erow). simpl.
    unfold scaling_factors_attr. rewrite Hsf. simpl.
    rewrite (getitem_lookup sfs t (at1 sfs t)) by (apply lookup_at1; lia). simpl.
    rewrite (setitem_row_eq B1 T n t) by (done || lia || by rewrite length_scale).
    eexists. split; [reflexivity|].
    assert (Htl : t < length B1) by (destruct HB1; lia).
    split; [|split].
    + apply shape2_insert; [done|]. by rewrite length_scale.
    + intros t' Hne. rewrite list_lookup_insert_ne by done. by apply Hr1.
    + intros i Hi.
      rewrite (at2_lookup _ t i (scale row (at1 sfs t))) by (by apply list_lookup_insert_eq).
      rewrite at1_scale by lia. f_equal.
      rewrite <- (at2_lookup B1 t i row Erow).
      apply (Hc1 i). exists i. split; [lia|done].
Qed.

(** The whole lattice, for any stored scaling factors that cover the
    sequence. *)
Lemma backward_pass_spec (self : IOHMM F) (transmat : tensor F) (framelogprob : mat F)
    (Tm T n : nat) (sfs : vec F) :
  n_components self = n -> scaling_factors self = Some sfs -> T <= length sfs ->
  shape3 transmat Tm n n -> T - 1 <= Tm ->
  shape2 framelogprob T n -> 1 <= T ->
  exists bwd,
    _do_backward_pass self transmat framelogprob = Ok bwd /\
    shape2 bwd T n /\
    (forall i, i < n -> at2 bwd (T - 1) i = fmul f1 (at1 sfs (T - 1))) /\
    forall t i, t + 1 < T -> i < n ->
      at2 bwd t i = fmul (backward_sum transmat framelogprob bwd n t i) (at1 sfs t).
Proof.
  intros Hn Hsf Hsfl Htm HTm Hflp HT.
  unfold _do_backward_pass. destruct Hflp as [HlenT Hrows]. rewrite HlenT, Hn.
  rewrite (getitem_lookup (np_ones2 T n) (T - 1) (replicate n f1))
    by (apply lookup_replicate_2; lia).
  simpl. unfold scaling_factors_attr. rewrite Hsf. simpl.
  rewrite (getitem_lookup sfs (T - 1) (at1 sfs (T - 1))) by (apply lookup_at1; lia). simpl.
  rewrite (setitem_row_eq (np_ones2 T n) T n (T - 1))
    by (apply shape2_replicate || lia || by rewrite length_scale, length_replicate).
  simpl.
  set (B0 := <[T - 1 := scale (replicate n f1) (at1 sfs (T - 1))]> (np_ones2 T n)).
  assert (HB0 : shape2 B0 T n).
  { apply shape2_insert; [apply shape2_replicate|]. by rewrite length_scale, length_replicate. }
  destruct (for_each_down
    (fun t (B : mat F) =>
       shape2 B T n /\
       (forall i, i < n -> at2 B (T - 1) i = fmul f1 (at1 sfs (T - 1))) /\
       forall t' i, t <= t' -> t' + 1 < T -> i < n ->
         at2 B t' i = fmul (backward_sum transmat framelogprob B n t' i) (at1 sfs t'))
    (backward_step self transmat framelogprob) (T - 1) B0) as (bwd & E & Hb & Hlast & Hrec).
  - split; [done|]. split; [|intros; lia].
    intros i Hi. unfold B0.
    rewrite (at2_lookup _ (T - 1) i (scale (replicate n f1) (at1 sfs (T - 1)))).
    + rewrite at1_scale by (by rewrite length_replicate). f_equal.
      apply at1_lookup, lookup_replicate_2. done.
    + apply list_lookup_insert_eq. unfold np_ones2. rewrite length_replicate. lia.
  - intros t B Ht (HB & Hlast & Hrec).
    destruct (backward_step_spec self transmat framelogprob Tm T n t sfs B)
      as (B' & E' & HB' & Hr' & Hc'); try done; try lia.
    exists B'. split; [exact E'|]. split; [done|]. split.
    + intros i Hi. rewrite (at2_row_eq B B' (T - 1) i) by (apply Hr'; lia). by apply Hlast.
    + intros t' i Ht' Ht'1 Hi. destruct (decide (t' = t)) as [->|Hne].
      * rewrite Hc' by done. f_equal. symmetry. apply backward_sum_row, Hr'. lia.
      * rewrite (at2_row_eq B B' t' i) by (apply Hr'; lia).
        rewrite (backward_sum_row transmat framelogprob B B' n t' i) by (apply Hr'; lia).
        apply Hrec; (done || lia).
  - exists bwd. split; [exact E|]. split; [done|]. split; [done|].
    intros t i Ht Hi. apply Hrec; (done || lia).
Qed.

End Backward.

Section BackwardStatements.

Context {F : Type} `{Arith F} `{!ArithLaws F} `{Transcendental F}.

(** C3.  After the forward pass has stored the scaling factors of a
    sequence of [T >= 1] steps, the backward pass on the same sequence
    returns a lattice whose last row is [scaling_factors[T-1]] in every
    state, and whose row [t], from [T-2] down to [0], holds in state [i]
    the product of [scaling_factors[t]] with the sum over [j] of
    [transmat[t][i][j] * bwdlattice[t+1][j] * framelogprob[t+1][j]]. *)
Theorem backward_pass_seed_and_recursion (self : IOHMM F) (transmat : tensor F)
    (framelogprob : mat F) (T n : nat) (sp : vec F) :
  n_components self = n -> startprob self = Some sp -> length sp = n ->
  shape3 transmat T n n -> shape2 framelogprob T n -> 1 <= T ->
  exists likelihood fwdlattice sfs bwdlattice,
    _do_forward_pass self transmat framelogprob =
      (Ok (likelihood, fwdlattice), set_scaling_factors sfs self) /\
    _do_backward_pass (set_scaling_factors sfs self) transmat framelogprob = Ok bwdlattice /\
    shape2 bwdlattice T n /\
    (forall i, i < n -> at2 bwdlattice (T - 1) i = at1 sfs (T - 1)) /\
    (forall t i, t + 1 < T -> i < n ->
       at2 bwdlattice t i =
         fmul (at1 sfs t) (backward_sum transmat framelogprob bwdlattice n t i)).
Proof.
  intros Hn Hsp Hspl Htm Hflp HT.
  destruct (shape3_lookup transmat T n n 0 Htm) as (tm0 & Htm0 & Hsh0); [lia|].
  destruct (forward_lattice_spec self transmat framelogprob T n sp tm0)
    as (fwd & sfs & E & Hfwd & Hsfs & _); try done.
  destruct (backward_pass_spec (set_scaling_factors sfs self) transmat framelogprob T T n sfs)
    as (bwd & Eb & Hb & Hlast & Hrec); try done; try lia.
  eexists _, fwd, sfs, bwd. split.
  { unfold _do_forward_pass. rewrite E. reflexivity. }
  split; [exact Eb|]. split; [done|]. split.
  - intros i Hi. rewrite Hlast by done. apply fmul_1_l.
  - intros t i Ht Hi. rewrite Hrec by done. apply fmul_comm.
Qed.

End BackwardStatements.

Lemma backward_pass_seed_and_recursion_witness :
  (n_components (b64_model 0) = 2 /\ startprob (b64_model 0) = Some b64_start /\
   length b64_start = 2 /\
   shape3 b64_transmat 3 2 2 /\ shape2 b64_framelogprob 3 2 /\ 1 <= 3) /\
  forall TR : Transcendental float,
  exists likelihood fwdlattice sfs bwdlattice,
    _do_forward_pass (b64_model 0) b64_transmat b64_framelogprob =
      (Ok (likelihood, fwdlattice), set_scaling_factors sfs (b64_model 0)) /\
    _do_backward_pass (set_scaling_factors sfs (b64_model 0)) b64_transmat b64_framelogprob =
      Ok bwdlattice /\
    shape2 bwdlattice 3 2 /\
    (forall i, i < 2 -> at2 bwdlattice (3 - 1) i = at1 sfs (3 - 1)) /\
    (forall t i, t + 1 < 3 -> i < 2 ->
       at2 bwdlattice t i =
         fmul (at1 sfs t) (backward_sum b64_transmat b64_framelogprob bwdlattice 2 t i)).
Proof.
  assert (Hhyp : n_components (b64_model 0) = 2 /\ startprob (b64_model 0) = Some b64_start /\
   length b64_start = 2 /\
   shape3 b64_transmat 3 2 2 /\ shape2 b64_framelogprob 3 2 /\ 1 <= 3).
  { repeat split; try reflexivity; try lia; repeat constructor. }
  split; [exact Hhyp|].
  destruct Hhyp as (h1 & h2 & h3 & h4 & h5 & h6). intros TR.
  exact (backward_pass_seed_and_recursion
           (b64_model 0) b64_transmat b64_framelogprob 3 2 b64_start h1 h2 h3 h4 h5 h6).
Defined.

(** ** The posterior statistics *)

Section Statistics.

Context {F : Type} `{Arith F}.

(** Two nested loops that assign every cell of one matrix of an array of
    matrices. *)
Lemma fill_slice (body : nat -> nat -> tensor F -> result (tensor F)) (g : nat -> nat -> F)
    (X : tensor F) (T n m t : nat) :
  shape3 X T n m -> t < T ->
  (forall i j X1, shape3 X1 T n m -> i < n -> j < m ->
     body i j X1 = setitem3 X1 t i j (g i j)) ->
  exists X',
    for_each (range 0 n) (fun i => for_each (range 0 m) (body i)) X = Ok X' /\
    shape3 X' T n m /\
    (forall i j, i < n -> j < m -> at3 X' t i j = g i j) /\
    (forall t' i j, t' <> t \/ n <= i \/ m <= j -> at3 X' t' i j = at3 X t' i j).
Proof.
  intros HX Ht Hbody. rewrite range_0.
  destruct (for_each_fill
    (fun (X1 : tensor F) (c : nat * nat * nat) => at3 X1 c.1.1 c.1.2 c.2)
    (fun X1 => shape3 X1 T n m)
    (fun i c => c.1.1 = t /\ c.1.2 = i /\ c.2 < m)
    (fun c => g c.1.2 c.2)
    (fun i => for_each (range 0 m) (body i)) 0 n X) as (X' & E & HX' & Hc).
  - intros i c. apply _.
  - done.
  - intros i X1 Hi HX1. rewrite range_0.
    destruct (for_each_fill
      (fun (X2 : tensor F) (c : nat * nat * nat) => at3 X2 c.1.1 c.1.2 c.2)
      (fun X2 => shape3 X2 T n m)
      (fun j c => c = (t, i, j))
      (fun c => g c.1.2 c.2)
      (body i) 0 m X1) as (X2 & E2 & HX2 & Hc2).
    + intros j c. apply _.
    + done.
    + intros j X3 Hj HX3. rewrite Hbody by (done || lia).
      destruct (setitem3_at X3 T n m t i j (g i j) HX3) as (X4 & E4 & HX4 & Hat & Hoth);
        try done; try lia.
      exists X4. split; [done|]. split; [done|]. intros [[a b] d]. simpl. split.
      * intros [= -> -> ->]. done.
      * intros Hne. by apply Hoth.
    + exists X2. split; [done|]. split; [done|]. intros [[a b] d]. simpl.
      destruct (Hc2 (a, b, d)) as [Hw Hn]. simpl in *. split.
      * intros (-> & -> & Hd). apply Hw. exists d. split; [lia|done].
      * intros Hno. apply Hn. intros j Hj [= -> -> ->]. apply Hno. lia.
  - exists X'. split; [done|]. split; [done|]. split.
    + intros i j Hi Hj. destruct (Hc (t, i, j)) as [Hw _]. simpl in Hw.
      apply Hw. exists i. lia.
    + intros t' i j Hout. destruct (Hc (t', i, j)) as [_ Hn]. simpl in Hn.
      apply Hn. intros i' Hi'. lia.
Qed.

(** Two nested loops that assign every cell of a matrix. *)
Lemma fill_matrix (body : nat -> nat -> mat F -> result (mat F)) (g : nat -> nat -> F)
    (M : mat F) (T n : nat) :
  shape2 M T n ->
  (forall t i M1, shape2 M1 T n -> t < T -> i < n ->
     body t i M1 = setitem2 M1 t i (g t i)) ->
  exists M',
    for_each (range 0 T) (fun t => for_each (range 0 n) (body t)) M = Ok M' /\
    shape2 M' T n /\
    forall t i, t < T -> i < n -> at2 M' t i = g t i.
Proof.
  intros HM Hbody. rewrite range_0.
  destruct (for_each_fill
    (fun (M1 : mat F) (c : nat * nat) => at2 M1 c.1 c.2)
    (fun M1 => shape2 M1 T n)
    (fun t c => c.1 = t /\ c.2 < n)
    (fun c => g c.1 c.2)
    (fun t => for_each (range 0 n) (body t)) 0 T M) as (M' & E & HM' & Hc).
  - intros t c. apply _.
  - done.
  - intros t M1 Ht HM1. rewrite range_0.
    destruct (for_each_fill
      (fun (M2 : mat F) (c : nat * nat) => at2 M2 c.1 c.2)
      (fun M2 => shape2 M2 T n)
      (fun i c => c = (t, i))
      (fun c => g c.1 c.2)
      (body t) 0 n M1) as (M2 & E2 & HM2 & Hc2).
    + intros i c. apply _.
    + done.
    + intros i M3 Hi HM3. rewrite Hbody by (done || lia).
      destruct (setitem2_at M3 T n t i (g t i) HM3) as (M4 & E4 & HM4 & _ & Hat & Hoth);
        try done; try lia.
      exists M4. split; [done|]. split; [done|]. intros [a b]. simpl. split.
      * intros [= -> ->]. done.
      * intros Hne. by apply Hoth.
    + exists M2. split; [done|]. split; [done|]. intros [a b]. simpl.
      destruct (Hc2 (a, b)) as [Hw Hn]. simpl in *. split.
      * intros (-> & Hb). apply Hw. exists b. split; [lia|done].
      * intros Hno. apply Hn. intros i Hi [= -> ->]. apply Hno. lia.
  - exists M'. split; [done|]. split; [done|].
    intros t i Ht Hi. destruct (Hc (t, i)) as [Hw _]. simpl in Hw.
    apply Hw. exists t. lia.
Qed.

(** Lines 148-155: the transition posteriors of all steps. *)
Lemma trans_posts_spec (self : IOHMM F) (transmat : tensor F)
    (framelogprob fwdlattice bwdlattice : mat F) (lpr : F) (T n : nat) (sp : vec F) :
  n_components self = n -> startprob self = Some sp -> length sp = n ->
  shape3 transmat T n n -> shape2 framelogprob T n ->
  shape2 fwdlattice T n -> shape2 bwdlattice T n -> 1 <= T ->
  exists tp,
    (trans_posts <-
       trans_posts_first self transmat framelogprob bwdlattice lpr (np_tile3 f0 T n n) ;;
     trans_posts_rest self transmat framelogprob fwdlattice bwdlattice lpr T trans_posts)
    = Ok tp /\
    shape3 tp T n n /\
    (forall i j, i < n -> j < n ->
       at3 tp 0 i j =
         fdiv (fmul (fmul (fmul (at2 framelogprob 0 i) (at1 sp j)) (at2 bwdlattice 0 i))
                    (at3 transmat 0 j i)) lpr) /\
    (forall t i j, 1 <= t < T -> i < n -> j < n ->
       at3 tp t i j =
         fdiv (fmul (fmul (fmul (at2 framelogprob t i) (at2 fwdlattice (t - 1) j))
                          (at2 bwdlattice t i))
                    (at3 transmat t j i)) lpr).
Proof.
  intros Hn Hsp Hspl Htm Hflp Hfwd Hbwd HT.
  set (g0 := fun i j =>
         fdiv (fmul (fmul (fmul (at2 framelogprob 0 i) (at1 sp j)) (at2 bwdlattice 0 i))
                    (at3 transmat 0 j i)) lpr).
  set (g := fun t i j =>
         fdiv (fmul (fmul (fmul (at2 framelogprob t i) (at2 fwdlattice (t - 1) j))
                          (at2 bwdlattice t i))
                    (at3 transmat t j i)) lpr).
  unfold trans_posts_first, trans_posts_rest. rewrite Hn.
  destruct (fill_slice
    (fun i j trans_posts =>
       a <- getitem2 framelogprob 0 i ;;
       sp <- startprob_vector self ;;
       b <- getitem sp j ;;
       c <- getitem2 bwdlattice 0 i ;;
       d <- getitem3 transmat 0 j i ;;
       setitem3 trans_posts 0 i j (fdiv (fmul (fmul (fmul a b) c) d) lpr))
    g0 (np_tile3 f0 T n n) T n n 0) as (X0 & E0 & HX0 & Hfirst & Hframe0).
  - apply shape3_replicate.
  - lia.
  - intros i j X1 HX1 Hi Hj.
    rewrite (getitem2_at framelogprob T n 0 i) by (done || lia). simpl.
    unfold startprob_vector. rewrite Hsp. simpl.
    rewrite (getitem_lookup sp j (at1 sp j)) by (apply lookup_at1; lia). simpl.
    rewrite (getitem2_at bwdlattice T n 0 i) by (done || lia). simpl.
    rewrite (getitem3_at transmat T n n 0 j i) by (done || lia). simpl.
    reflexivity.
  - rewrite E0. simpl.
    destruct (for_each_fill
      (fun (X1 : tensor F) (c : nat * nat * nat) => at3 X1 c.1.1 c.1.2 c.2)
      (fun X1 => shape3 X1 T n n)
      (fun t c => c.1.1 = t /\ c.1.2 < n /\ c.2 < n)
      (fun c => g c.1.1 c.1.2 c.2)
      (fun t =>
         for_each (range 0 n)
           (fun i =>
              for_each (range 0 n)
                (fun j trans_posts =>
                   a <- getitem2 framelogprob t i ;;
                   b <- getitem2 fwdlattice (t - 1) j ;;
                   c <- getitem2 bwdlattice t i ;;
                   d <- getitem3 transmat t j i ;;
                   setitem3 trans_posts t i j (fdiv (fmul (fmul (fmul a b) c) d) lpr))))
      1 (T - 1) X0) as (X' & E & HX' & Hc).
    + intros t c. apply _.
    + done.
    + intros t X1 Ht HX1.
      destruct (fill_slice
        (fun i j trans_posts =>
           a <- getitem2 framelogprob t i ;;
           b <- getitem2 fwdlattice (t - 1) j ;;
           c <- getitem2 bwdlattice t i ;;
           d <- getitem3 transmat t j i ;;
           setitem3 trans_posts t i j (fdiv (fmul (fmul (fmul a b) c) d) lpr))
        (g t) X1 T n n t) as (X2 & E2 & HX2 & Hin & Hout).
      * done.
      * lia.
      * intros i j X3 HX3 Hi Hj.
        rewrite (getitem2_at framelogprob T n t i) by (done || lia). simpl.
        rewrite (getitem2_at fwdlattice T n (t - 1) j) by (done || lia). simpl.
        rewrite (getitem2_at bwdlattice T n t i) by (done || lia). simpl.
        rewrite (getitem3_at transmat T n n t j i) by (done || lia). simpl.
        reflexivity.
      * exists X2. split; [exact E2|]. split; [done|]. intros [[a b] d]. simpl. split.
        -- intros (-> & Hb & Hd). by apply Hin.
        -- intros Hno. apply Hout. lia.
    + exists X'. split; [exact E|]. split; [done|]. split.
      * intros i j Hi Hj. destruct (Hc (0, i, j)) as [_ Hn0]. simpl in Hn0.
        rewrite Hn0 by (intros t' Ht'; lia). by apply Hfirst.
      * intros t i j Ht Hi Hj. destruct (Hc (t, i, j)) as [Hw _]. simpl in Hw.
        apply Hw. exists t. lia.
Qed.

(** Lines 160-164: the state posteriors. *)
Lemma state_posts_spec (self : IOHMM F) (fwdlattice bwdlattice : mat F) (T n : nat) :
  n_components self = n -> shape2 fwdlattice T n -> shape2 bwdlattice T n ->
  exists sps,
    state_posts_products self fwdlattice bwdlattice T (np_zeros2 T n) = Ok sps /\
    shape2 sps T n /\
    forall t i, t < T -> i < n -> at2 sps t i = fmul (at2 fwdlattice t i) (at2 bwdlattice t i).
Proof.
  intros Hn Hfwd Hbwd. unfold state_posts_products. rewrite Hn.
  apply (fill_matrix
    (fun t i state_posts =>
       a <- getitem2 fwdlattice t i ;;
       b <- getitem2 bwdlattice t i ;;
       setitem2 state_posts t i (fmul a b))
    (fun t i => fmul (at2 fwdlattice t i) (at2 bwdlattice t i))).
  - apply shape2_replicate.
  - intros t i M1 HM1 Ht Hi.
    rewrite (getitem2_at fwdlattice T n t i) by done. simpl.
    rewrite (getitem2_at bwdlattice T n t i) by done. simpl.
    reflexivity.
Qed.

Lemma shape2_div_scalar (M : mat F) (T n : nat) (s : F) :
  shape2 M T n -> shape2 (div_scalar M s) T n.
Proof.
  intros [HT Hrows]. split; [by unfold div_scalar; rewrite length_fmap|].
  unfold div_scalar. apply Forall_fmap. eapply Forall_impl; [exact Hrows|].
  intros row Hrow. simpl. by rewrite length_fmap.
Qed.

Lemma at2_div_scalar (M : mat F) (T n t i : nat) (s : F) :
  shape2 M T n -> t < T -> i < n -> at2 (div_scalar M s) t i = fdiv (at2 M t i) s.
Proof.
  intros HM Ht Hi. destruct (shape2_lookup M T n t HM Ht) as (row & E & Hrow).
  rewrite (at2_lookup M t i row E).
  rewrite (at2_lookup _ t i ((fun x => fdiv x s) <$> row)).
  - apply at1_lookup. rewrite list_lookup_fmap, (lookup_at1 row i) by lia. done.
  - unfold div_scalar. by rewrite list_lookup_fmap, E.
Qed.

(** C4.  On lattices, likelihoods and transition matrices of a sequence of
    [T >= 1] steps, the statistics computation returns and stores
    [trans_posts] and [state_posts] with
    [trans_posts[0][i][j] = framelogprob[0][i] * startprob[j] * bwdlattice[0][i] * transmat[0][j][i] / lpr],
    [trans_posts[t][i][j] = framelogprob[t][i] * fwdlattice[t-1][j] * bwdlattice[t][i] * transmat[t][j][i] / lpr]
    for [t > 0], and
    [state_posts[t][i] = fwdlattice[t][i] * bwdlattice[t][i] / lpr]. *)
Theorem sufficient_statistics_formulas (self : IOHMM F) (transmat : tensor F)
    (framelogprob fwdlattice bwdlattice : mat F) (lpr : F) (T n : nat) (sp : vec F) :
  n_components self = n -> startprob self = Some sp -> length sp = n ->
  shape3 transmat T n n -> shape2 framelogprob T n ->
  shape2 fwdlattice T n -> shape2 bwdlattice T n -> 1 <= T ->
  exists tp sps,
    _compute_sufficient_static self transmat framelogprob fwdlattice bwdlattice lpr =
      (Ok tt, set_state_posts sps (set_trans_posts tp self)) /\
    shape3 tp T n n /\ shape2 sps T n /\
    (forall i j, i < n -> j < n ->
       at3 tp 0 i j =
         fdiv (fmul (fmul (fmul (at2 framelogprob 0 i) (at1 sp j)) (at2 bwdlattice 0 i))
                    (at3 transmat 0 j i)) lpr) /\
    (forall t i j, 1 <= t < T -> i < n -> j < n ->
       at3 tp t i j =
         fdiv (fmul (fmul (fmul (at2 framelogprob t i) (at2 fwdlattice (t - 1) j))
                          (at2 bwdlattice t i))
                    (at3 transmat t j i)) lpr) /\
    (forall t i, t < T -> i < n ->
       at2 sps t i = fdiv (fmul (at2 fwdlattice t i) (at2 bwdlattice t i)) lpr).
Proof.
  intros Hn Hsp Hspl Htm Hflp Hfwd Hbwd HT.
  destruct (trans_posts_spec self transmat framelogprob fwdlattice bwdlattice lpr T n sp)
    as (tp & Etp & Htp & Hfirst & Hlater); try done.
  destruct (state_posts_spec (set_trans_posts tp self) fwdlattice bwdlattice T n)
    as (sps & Esps & Hsps & Hprod); try done.
  exists tp, (div_scalar sps lpr).
  unfold _compute_sufficient_static.
  destruct Hflp as [HlenT Hrows]. rewrite HlenT, Hn, Etp.
  replace (n_components (set_trans_posts tp self)) with n in Esps |- * by done.
  rewrite Esps.
  split; [reflexivity|]. split; [done|]. split; [by apply shape2_div_scalar|].
  split; [done|]. split; [done|].
  intros t i Ht Hi. rewrite (at2_div_scalar sps T n t i lpr) by done.
  by rewrite Hprod.
Qed.

End Statistics.

Lemma sufficient_statistics_formulas_witness :
  (n_components (b64_model 0) = 2 /\ startprob (b64_model 0) = Some b64_start /\
   length b64_start = 2 /\
   shape3 b64_transmat 3 2 2 /\ shape2 b64_framelogprob 3 2 /\
   shape2 b64_framelogprob 3 2 /\ shape2 b64_framelogprob 3 2 /\ 1 <= 3) /\
  exists tp sps,
    _compute_sufficient_static (b64_model 0) b64_transmat b64_framelogprob b64_framelogprob
      b64_framelogprob 1%float =
      (Ok tt, set_state_posts sps (set_trans_posts tp (b64_model 0))) /\
    shape3 tp 3 2 2 /\ shape2 sps 3 2 /\
    (forall i j, i < 2 -> j < 2 ->
       at3 tp 0 i j =
         fdiv (fmul (fmul (fmul (at2 b64_framelogprob 0 i) (at1 b64_start j))
                          (at2 b64_framelogprob 0 i))
                    (at3 b64_transmat 0 j i)) 1%float) /\
    (forall t i j, 1 <= t < 3 -> i < 2 -> j < 2 ->
       at3 tp t i j =
         fdiv (fmul (fmul (fmul (at2 b64_framelogprob t i) (at2 b64_framelogprob (t - 1) j))
                          (at2 b64_framelogprob t i))
                    (at3 b64_transmat t j i)) 1%float) /\
    (forall t i, t < 3 -> i < 2 ->
       at2 sps t i = fdiv (fmul (at2 b64_framelogprob t i) (at2 b64_framelogprob t i)) 1%float).
Proof.
  assert (Hhyp : n_components (b64_model 0) = 2 /\ startprob (b64_model 0) = Some b64_start /\
   length b64_start = 2 /\
   shape3 b64_transmat 3 2 2 /\ shape2 b64_framelogprob 3 2 /\
   shape2 b64_framelogprob 3 2 /\ shape2 b64_framelogprob 3 2 /\ 1 <= 3).
  { repeat split; try reflexivity; try lia; repeat constructor. }
  split; [exact Hhyp|].
  destruct Hhyp as (h1 & h2 & h3 & h4 & h5 & h6 & h7 & h8).
  exact (sufficient_statistics_formulas
           (b64_model 0) b64_transmat b64_framelogprob b64_framelogprob b64_framelogprob
           1%float 3 2 b64_start h1 h2 h3 h4 h5 h6 h7 h8).
Defined.

(** ** [fit] and the transition builder *)

Section Fit.

Context {F : Type} `{Arith F} `{Transcendental F} `{Extmath F}.

(** [len] called with three arguments. *)
Lemma len_three_arguments (a b c : pyobj F) : len [a; b; c] = Raise TypeError.
Proof. by destruct a. Qed.

Lemma compute_transmat_raises (self : IOHMM F) (ins_seq : mat F) :
  _compute_transmat self ins_seq = Raise TypeError.
Proof. unfold _compute_transmat. by rewrite len_three_arguments. Qed.

(** The first sequence of an iteration: the call to [_compute_transmat]
    raises once [obs[0]] and [self.ins[0]] have been read. *)
Lemma estep_sequence_raises (h : Hooks F) (obs : list (mat F)) (i : nat) (fr : frame F) :
  i < length obs -> i < length (ins (self_ fr)) ->
  estep_sequence h obs i fr =
    (Raise TypeError,
     {| self_ := self_ fr; local_i := local_i fr; local_lpr := local_lpr fr;
        local_logprob := local_logprob fr; trace := trace fr ++ [EvSequence i] |}).
Proof.
  intros Hobs Hins.
  destruct (lookup_lt_is_Some_2 obs i Hobs) as [o Eo].
  destruct (lookup_lt_is_Some_2 (ins (self_ fr)) i Hins) as [u Eu].
  unfold estep_sequence, sbind, tick, modify, lift, reading_self. simpl.
  rewrite (getitem_lookup _ _ _ Eo), (getitem_lookup _ _ _ Eu).
  unfold call_compute_transmat, call_method, reading_self. simpl.
  reflexivity.
Qed.

(** Whatever [self.ins] holds, the first sequence of a non-empty corpus
    raises: [IndexError] at [self.ins[0]], or [TypeError] in
    [_compute_transmat]. *)
Lemma estep_first_sequence_raises (h : Hooks F) (o : mat F) (obs : list (mat F))
    (fr : frame F) :
  exists e fr', estep_sequence h (o :: obs) 0 fr = (Raise e, fr').
Proof.
  unfold estep_sequence, sbind, tick, modify, lift, reading_self. simpl.
  destruct (getitem (ins (self_ fr)) 0) as [u|e]; simpl; by eexists _, _.
Qed.

(** An iteration never completes: it raises in its first sequence, or at
    [logprob.append(lpr)] when there is no sequence, unless a hook raised
    before. *)
Lemma em_loop_raises (h : Hooks F) (obs : list (mat F)) (k : nat) (rest : list nat)
    (fr : frame F) :
  local_lpr fr = None ->
  exists e fr', em_loop h obs (k :: rest) fr = (Raise e, fr').
Proof.
  intros Hlpr. simpl.
  unfold sbind, assign_i, tick, modify, on_self. simpl.
  destruct (_initialize_sufficient_statistics h (self_ fr)) as [[[]|e] s1]; simpl;
    [|by eexists _, _].
  destruct obs as [|o obs]; simpl.
  - unfold em_tail, sbind, read_local. simpl. rewrite Hlpr. simpl. by eexists _, _.
  - unfold sbind, modify. simpl.
    match goal with
    | |- context [estep_sequence h (o :: obs) 0 ?f] =>
        destruct (estep_first_sequence_raises h o obs f) as (e & fr' & E); rewrite E
    end.
    by eexists _, _.
Qed.

(** C9.  When [n_iter] is zero once [_init] has returned, [fit] returns
    after the initialization alone: no sequence is processed, the
    convergence test and the M-step are not reached, and [self], with its
    [trans_weight_mat], is as [_init] left it. *)
Theorem fit_without_iterations (h : Hooks F) (self self1 : IOHMM F) (obs : list (mat F)) :
  _init h obs (init_params self) self = (Ok tt, self1) ->
  n_iter self1 = 0%Z ->
  (fit h self obs).1 = Ok tt /\
  trace (fit h self obs).2 = [EvInit] /\
  self_ (fit h self obs).2 = self1 /\
  trans_weight_mat (self_ (fit h self obs).2) = trans_weight_mat self1.
Proof.
  intros Hinit Hn.
  unfold fit, fit_body, sbind, tick, modify, gets, on_self, assign_logprob. simpl.
  rewrite Hinit. simpl. rewrite Hn. simpl. done.
Qed.

(** With any hooks that return, a non-empty corpus and [n_iter >= 1], [fit]
    raises [TypeError] in the first sequence of the first iteration. *)
Lemma fit_raises_in_first_sequence (h : Hooks F) (self self1 self2 : IOHMM F)
    (obs : list (mat F)) :
  obs <> [] ->
  _init h obs (init_params self) self = (Ok tt, self1) ->
  (1 <= n_iter self1)%Z ->
  _initialize_sufficient_statistics h self1 = (Ok tt, self2) ->
  ins self2 <> [] ->
  fit h self obs =
    (Raise TypeError,
     {| self_ := self2; local_i := Some 0; local_lpr := None; local_logprob := [];
        trace := [EvInit; EvInitStats; EvSequence 0] |}).
Proof.
  intros Hobs Hinit Hn Hstats Hins.
  unfold fit, fit_body, sbind, tick, modify, gets, on_self, assign_logprob. simpl.
  rewrite Hinit. simpl.
  destruct (Z.to_nat (n_iter self1)) as [|k] eqn:Ek; [lia|].
  unfold range. simpl.
  unfold sbind, assign_i, tick, modify, on_self. simpl.
  rewrite Hstats. simpl.
  destruct obs as [|o obs]; [done|]. simpl.
  unfold sbind, assign_i, modify. simpl.
  rewrite estep_sequence_raises; simpl; [done | lia |].
  destruct (ins self2); [done | simpl; lia].
Qed.

(** With any hooks, a call of [fit] that returns had no iteration to run. *)
Lemma fit_returns_without_iterations (h : Hooks F) (self : IOHMM F) (obs : list (mat F))
    (fr : frame F) :
  fit h self obs = (Ok tt, fr) ->
  exists self1, _init h obs (init_params self) self = (Ok tt, self1) /\ (n_iter self1 <= 0)%Z.
Proof.
  intros Efit.
  unfold fit, fit_body, sbind, tick, modify, gets, on_self, assign_logprob in Efit.
  simpl in Efit.
  destruct (_init h obs (init_params self) self) as [[[]|e] s1] eqn:Ei; simpl in Efit;
    [|discriminate].
  exists s1. split; [done|].
  destruct (Z.to_nat (n_iter s1)) as [|k] eqn:Ek; [lia|].
  exfalso. change (range 0 (S k)) with (0 :: seq 1 k) in Efit.
  match type of Efit with
  | em_loop ?hh ?oo (?kk :: ?rr) ?ff = _ =>
      destruct (em_loop_raises hh oo kk rr ff) as (e & fr'' & Er); [done|]
  end.
  rewrite Er in Efit. discriminate.
Qed.

(** What [__init__] assigns; it raises when [ins] is empty. *)
Lemma init_attributes (n : nat) (ins0 : list (mat F)) (sp : option (vec F))
    (alg : string) (rs : option Z) (it : Z) (th : F) (ps ips : string) (self : IOHMM F) :
  __init__ n ins0 sp alg rs it th ps ips = Ok self ->
  ins self = ins0 /\ ins0 <> [] /\ n_iter self = it /\ n_components self = n /\
  startprob self = sp /\ scaling_factors self = None.
Proof.
  unfold __init__. destruct ins0 as [|first rest]; simpl; [discriminate|].
  intros [= <-]. simpl. done.
Qed.

(** C10.  For an instance of the base class as [__init__] builds it, with
    [n_iter >= 1] and a non-empty corpus, [fit] raises [TypeError] while it
    processes the first sequence of the first iteration, before any
    convergence test or M-step.  The builtin [len] is called with three
    arguments in [_compute_transmat], and the calls of [_do_forward_pass],
    [_do_backward_pass] and [_compute_sufficient_static] each pass one
    argument more than the method accepts.  Hence [fit] returns normally
    only when there is no iteration to run: for a non-negative [n_iter],
    only when [n_iter] is zero. *)
Theorem fit_raises_TypeError (n : nat) (ins0 : list (mat F)) (sp : option (vec F))
    (alg : string) (rs : option Z) (it : Z) (th : F) (ps ips : string)
    (self : IOHMM F) (obs : list (mat F)) :
  __init__ n ins0 sp alg rs it th ps ips = Ok self ->
  obs <> [] ->
  (1 <= it)%Z ->
  ((fit base_hooks self obs).1 = Raise TypeError /\
   trace (fit base_hooks self obs).2 = [EvInit; EvInitStats; EvSequence 0] /\
   ~ In EvConvergenceCheck (trace (fit base_hooks self obs).2) /\
   ~ In EvMStep (trace (fit base_hooks self obs).2)) /\
  ((forall s ins_seq, _compute_transmat s ins_seq = Raise TypeError) /\
   (forall tm flp ins_seq fr,
      call_do_forward_pass tm flp ins_seq fr = (Raise TypeError, fr)) /\
   (forall tm flp ins_seq fr,
      call_do_backward_pass tm flp ins_seq fr = (Raise TypeError, fr)) /\
   (forall tm flp fwd bwd lpr fr,
      call_compute_sufficient_static tm flp fwd bwd lpr fr = (Raise TypeError, fr))) /\
  (forall n' ins' sp' alg' rs' it' th' ps' ips' self' obs' fr',
     __init__ n' ins' sp' alg' rs' it' th' ps' ips' = Ok self' ->
     fit base_hooks self' obs' = (Ok tt, fr') ->
     (it' <= 0)%Z /\ ((0 <= it')%Z -> it' = 0%Z)).
Proof.
  intros Hinit Hobs Hit.
  destruct (init_attributes _ _ _ _ _ _ _ _ _ _ Hinit) as (Hins & Hne & Hn & _).
  split; [|split].
  - rewrite (fit_raises_in_first_sequence base_hooks self self self obs);
      try done; try (rewrite Hn; done); try (rewrite Hins; done).
    simpl. split; [done|]. split; [done|].
    split; intros [?|[?|[?|[]]]]; discriminate.
  - split; [apply compute_transmat_raises|]. done.
  - intros n' ins' sp' alg' rs' it' th' ps' ips' self' obs' fr' Hinit' Efit.
    destruct (init_attributes _ _ _ _ _ _ _ _ _ _ Hinit') as (_ & _ & Hn' & _).
    destruct (fit_returns_without_iterations base_hooks self' obs' fr' Efit)
      as (s1 & Ei & Hle).
    simpl in Ei. injection Ei as <-. rewrite Hn' in Hle. split; [done|]. lia.
Qed.

(** C5.  The transition builder raises [TypeError] on every input, so it
    returns no tensor at all. *)
Theorem compute_transmat_always_raises (self : IOHMM F) (ins_seq : mat F) :
  _compute_transmat self ins_seq = Raise TypeError.
Proof. unfold _compute_transmat. by rewrite len_three_arguments. Qed.

End Fit.

(** The loops of [_compute_transmat], were they reached: the weight matrix
    has [input_dim + 1] columns and the input vector [input_dim] entries, no
    constant [1] being appended, so [np.dot] raises [ValueError]. *)
Lemma compute_transmat_loops_shape_mismatch :
  input_dim (b64_model 2) = 1 /\
  forall EX : Extmath float,
    compute_transmat_loops (b64_model 2) b64_inputs (np_tile3 0%float 3 2 2) =
      Raise ValueError.
Proof. split; [reflexivity|]. intros EX. reflexivity. Qed.

Lemma fit_without_iterations_witness :
  (_init base_hooks [b64_obs] (init_params (b64_model 0)) (b64_model 0) =
     (Ok tt, b64_model 0) /\
   n_iter (b64_model 0) = 0%Z) /\
  forall (TR : Transcendental float) (EX : Extmath float),
    (fit base_hooks (b64_model 0) [b64_obs]).1 = Ok tt /\
    trace (fit base_hooks (b64_model 0) [b64_obs]).2 = [EvInit] /\
    self_ (fit base_hooks (b64_model 0) [b64_obs]).2 = b64_model 0 /\
    trans_weight_mat (self_ (fit base_hooks (b64_model 0) [b64_obs]).2) =
      trans_weight_mat (b64_model 0).
Proof.
  split; [split; reflexivity|]. intros TR EX.
  exact (fit_without_iterations base_hooks (b64_model 0) (b64_model 0) [b64_obs]
           eq_refl eq_refl).
Defined.

Lemma fit_raises_TypeError_witness :
  (__init__ 2 [b64_inputs; b64_inputs] (Some b64_start) "viterbi" None 2 0.5%float "" "" =
     Ok (b64_model 2) /\
   [b64_obs] <> [] /\ (1 <= 2)%Z) /\
  forall (TR : Transcendental float) (EX : Extmath float),
    (fit base_hooks (b64_model 2) [b64_obs]).1 = Raise TypeError /\
    trace (fit base_hooks (b64_model 2) [b64_obs]).2 = [EvInit; EvInitStats; EvSequence 0].
Proof.
  assert (Hhyp :
    __init__ 2 [b64_inputs; b64_inputs] (Some b64_start) "viterbi" None 2 0.5%float "" "" =
      Ok (b64_model 2) /\
    [b64_obs] <> [] /\ (1 <= 2)%Z).
  { repeat split; try reflexivity; try discriminate. }
  split; [exact Hhyp|].
  destruct Hhyp as (h1 & h2 & h3). intros TR EX.
  destruct (fit_raises_TypeError 2 [b64_inputs; b64_inputs] (Some b64_start) "viterbi" None 2
              0.5%float "" "" (b64_model 2) [b64_obs] h1 h2 h3) as [(Hr & Ht & _) _].
  exact (conj Hr Ht).
Defined.

(** C7.  With [n_iter = 2] and a corpus of one sequence, [fit] raises
    [TypeError] in its first iteration, so the loop ends neither by the
    convergence test nor by exhausting [n_iter].  The statements of lines
    118-123 read the variable [i] that the loop over the sequences has
    assigned: with [i = 0] (one sequence) the M-step runs although an
    earlier iteration is recorded and the difference is below the
    threshold; with [i = 1] and no earlier iteration [logprob[-2]] raises
    [IndexError].  The comparison itself is strict, and when it holds the
    M-step is skipped. *)
Theorem convergence_test_reads_sequence_index :
  (forall (TR : Transcendental float) (EX : Extmath float),
     (fit base_hooks (b64_model 2) [b64_obs]).1 = Raise TypeError /\
     trace (fit base_hooks (b64_model 2) [b64_obs]).2 = [EvInit; EvInitStats; EvSequence 0]) /\
  ((em_tail base_hooks (b64_frame 0 [1%float] 1%float)).1 = Ok false /\
   trace (em_tail base_hooks (b64_frame 0 [1%float] 1%float)).2 =
     [EvConvergenceCheck; EvMStep]) /\
  (em_tail base_hooks (b64_frame 1 [] 1%float)).1 = Raise IndexError /\
  ((em_tail base_hooks (b64_frame 1 [1%float] 1%float)).1 = Ok true /\
   trace (em_tail base_hooks (b64_frame 1 [1%float] 1%float)).2 = [EvConvergenceCheck]) /\
  (em_tail base_hooks (b64_frame 1 [1%float] 1.5%float)).1 = Ok false.
Proof.
  split; [intros TR EX; split; reflexivity|].
  repeat split; reflexivity.
Qed.

(** ** Statistics across sequences *)

Section Accumulation.

Context {F : Type} `{Arith F}.

Lemma statistics_depend_on_two_attributes (self self' : IOHMM F) (transmat : tensor F)
    (framelogprob fwdlattice bwdlattice : mat F) (lpr : F) :
  n_components self' = n_components self -> startprob self' = startprob self ->
  (_compute_sufficient_static self' transmat framelogprob fwdlattice bwdlattice lpr).1 =
  (_compute_sufficient_static self transmat framelogprob fwdlattice bwdlattice lpr).1 /\
  ((_compute_sufficient_static self transmat framelogprob fwdlattice bwdlattice lpr).1 = Ok tt ->
   trans_posts
     (_compute_sufficient_static self' transmat framelogprob fwdlattice bwdlattice lpr).2 =
   trans_posts
     (_compute_sufficient_static self transmat framelogprob fwdlattice bwdlattice lpr).2 /\
   state_posts
     (_compute_sufficient_static self' transmat framelogprob fwdlattice bwdlattice lpr).2 =
   state_posts
     (_compute_sufficient_static self transmat framelogprob fwdlattice bwdlattice lpr).2).
Proof.
  intros Hn Hs.
  unfold _compute_sufficient_static, trans_posts_first, trans_posts_rest,
    state_posts_products, startprob_vector.
  simpl. rewrite Hn, Hs.
  match goal with
  | |- context [match ?e with Ok _ => _ | Raise _ => _ end] => destruct e as [tp|e1]
  end; simpl; [|done].
  match goal with
  | |- context [match ?e with Ok _ => _ | Raise _ => _ end] => destruct e as [sps|e2]
  end; simpl; done.
Qed.

(** C6, as the code has it.  A call of [_compute_sufficient_static] that
    returns stores the posteriors of the sequence it was called on, whatever
    posteriors were stored before: nothing is added to them. *)
Theorem statistics_replace_stored_posteriors (self : IOHMM F) (X0 : tensor F) (M0 : mat F)
    (transmat : tensor F) (framelogprob fwdlattice bwdlattice : mat F) (lpr : F) :
  (_compute_sufficient_static self transmat framelogprob fwdlattice bwdlattice lpr).1 = Ok tt ->
  (_compute_sufficient_static (set_state_posts M0 (set_trans_posts X0 self))
     transmat framelogprob fwdlattice bwdlattice lpr).1 = Ok tt /\
  trans_posts
    (_compute_sufficient_static (set_state_posts M0 (set_trans_posts X0 self))
       transmat framelogprob fwdlattice bwdlattice lpr).2 =
  trans_posts
    (_compute_sufficient_static self transmat framelogprob fwdlattice bwdlattice lpr).2 /\
  state_posts
    (_compute_sufficient_static (set_state_posts M0 (set_trans_posts X0 self))
       transmat framelogprob fwdlattice bwdlattice lpr).2 =
  state_posts
    (_compute_sufficient_static self transmat framelogprob fwdlattice bwdlattice lpr).2.
Proof.
  intros Hok.
  destruct (statistics_depend_on_two_attributes self
              (set_state_posts M0 (set_trans_posts X0 self))
              transmat framelogprob fwdlattice bwdlattice lpr eq_refl eq_refl) as [E1 E2].
  split; [by rewrite E1|]. by apply E2.
Qed.

End Accumulation.

Lemma statistics_replace_stored_posteriors_witness :
  (_compute_sufficient_static (b64_model 1) b64_transmat1 b64_ones1 b64_fwd_B b64_ones1
     1%float).1 = Ok tt /\
  (_compute_sufficient_static
     (set_state_posts b64_fwd_A
        (set_trans_posts (np_tile3 0.25%float 1 2 2) (b64_model 1)))
     b64_transmat1 b64_ones1 b64_fwd_B b64_ones1 1%float).1 = Ok tt /\
  trans_posts
    (_compute_sufficient_static
       (set_state_posts b64_fwd_A
          (set_trans_posts (np_tile3 0.25%float 1 2 2) (b64_model 1)))
       b64_transmat1 b64_ones1 b64_fwd_B b64_ones1 1%float).2 =
  trans_posts
    (_compute_sufficient_static (b64_model 1) b64_transmat1 b64_ones1 b64_fwd_B b64_ones1
       1%float).2 /\
  state_posts
    (_compute_sufficient_static
       (set_state_posts b64_fwd_A
          (set_trans_posts (np_tile3 0.25%float 1 2 2) (b64_model 1)))
       b64_transmat1 b64_ones1 b64_fwd_B b64_ones1 1%float).2 =
  state_posts
    (_compute_sufficient_static (b64_model 1) b64_transmat1 b64_ones1 b64_fwd_B b64_ones1
       1%float).2.
Proof.
  split; [reflexivity|].
  exact (statistics_replace_stored_posteriors (b64_model 1) (np_tile3 0.25%float 1 2 2)
           b64_fwd_A b64_transmat1 b64_ones1 b64_fwd_B b64_ones1 1%float eq_refl).
Defined.

(** C6 as stated fails.  After the statistics of sequence [A] and then of
    sequence [B] the stored state posteriors are those of [B], not the sum
    of the two; and [fit] over a corpus of two sequences raises in the
    first one, with no posteriors stored and no M-step. *)
Lemma statistics_not_summed_over_corpus :
  (state_posts
     (_compute_sufficient_static (b64_model 1) b64_transmat1 b64_ones1 b64_fwd_A b64_ones1
        1%float).2 = Some [[0.5; 0.5]]%float /\
   state_posts
     (_compute_sufficient_static
        (_compute_sufficient_static (b64_model 1) b64_transmat1 b64_ones1 b64_fwd_A b64_ones1
           1%float).2
        b64_transmat1 b64_ones1 b64_fwd_B b64_ones1 1%float).2 = Some [[0.25; 0.75]]%float /\
   mat_sum [[0.5; 0.5]]%float [[0.25; 0.75]]%float = [[0.75; 1.25]]%float /\
   [[0.25; 0.75]]%float <> [[0.75; 1.25]]%float) /\
  (forall (TR : Transcendental float) (EX : Extmath float),
     (fit base_hooks (b64_model 1) [b64_ones1; b64_ones1]).1 = Raise TypeError /\
     state_posts (self_ (fit base_hooks (b64_model 1) [b64_ones1; b64_ones1]).2) = None /\
     trans_posts (self_ (fit base_hooks (b64_model 1) [b64_ones1; b64_ones1]).2) = None /\
     trace (fit base_hooks (b64_model 1) [b64_ones1; b64_ones1]).2 =
       [EvInit; EvInitStats; EvSequence 0]).
Proof.
  split.
  - split; [reflexivity|]. split; [reflexivity|]. split; [reflexivity|].
    intros E.
    apply (f_equal (fun M : mat float =>
                      match M with
                      | (x :: _) :: _ => PrimFloat.eqb x 0.25
                      | _ => true
                      end)) in E.
    vm_compute in E. discriminate E.
  - intros TR EX. repeat split; reflexivity.
Qed.

(** ** A zero sum in the forward pass *)

(** C8, as the code has it.  On binary64 the forward pass returns for
    every well-shaped input.  Where the sum of a row before rescaling is
    zero, no error is raised: the scaling factor of that step is the
    quotient [1 / 0], an infinity, and the row is rescaled by it. *)
Theorem forward_pass_zero_sum_gives_infinity (self : IOHMM float) (transmat : tensor float)
    (framelogprob : mat float) (T n : nat) (sp : vec float) (tm0 : mat float) :
  n_components self = n -> startprob self = Some sp -> length sp = n ->
  transmat !! 0 = Some tm0 -> shape2 tm0 n n ->
  shape2 framelogprob T n -> 1 <= T ->
  exists fwd sfs,
    (forall TR : Transcendental float,
       exists likelihood,
         _do_forward_pass self transmat framelogprob =
           (Ok (likelihood, fwd), set_scaling_factors sfs self)) /\
    (forall like,
       framelogprob !! 0 = Some like ->
       np_sum (forward_raw tm0 sp like n) = 0%float ->
       sfs !! 0 = Some infinity /\
       fwd !! 0 = Some (scale (forward_raw tm0 sp like n) infinity)) /\
    (forall t prev like,
       1 <= t < T -> fwd !! (t - 1) = Some prev -> framelogprob !! t = Some like ->
       np_sum (forward_raw tm0 prev like n) = 0%float ->
       sfs !! t = Some infinity /\
       fwd !! t = Some (scale (forward_raw tm0 prev like n) infinity)).
Proof.
  intros Hn Hsp Hspl Htm Hsh Hflp HT.
  destruct (forward_lattice_spec self transmat framelogprob T n sp tm0)
    as (fwd & sfs & E & Hfwd & Hsfs & (like0 & Hl0 & Hs0 & Hf0) & Hrec); try done.
  exists fwd, sfs. split; [|split].
  - intros TR. eexists. unfold _do_forward_pass. rewrite E. reflexivity.
  - intros like Hlike Hzero. rewrite Hl0 in Hlike. injection Hlike as <-.
    rewrite Hzero in Hs0, Hf0. done.
  - intros t prev like Ht Hprev Hlike Hzero.
    destruct (Hrec t Ht) as (prev' & Hprev' & like' & Hlike' & Hs & Hf).
    rewrite Hprev in Hprev'. injection Hprev' as <-.
    rewrite Hlike in Hlike'. injection Hlike' as <-.
    rewrite Hzero in Hs, Hf. done.
Qed.

Lemma forward_pass_zero_sum_gives_infinity_witness :
  (n_components (b64_model 0) = 2 /\ startprob (b64_model 0) = Some b64_start /\
   length b64_start = 2 /\
   b64_transmat !! 0 = Some b64_uniform /\
   shape2 b64_uniform 2 2 /\
   shape2 [[0; 0]; [1; 1]]%float 2 2 /\ 1 <= 2) /\
  exists fwd sfs,
    (forall TR : Transcendental float,
       exists likelihood,
         _do_forward_pass (b64_model 0) b64_transmat [[0; 0]; [1; 1]]%float =
           (Ok (likelihood, fwd), set_scaling_factors sfs (b64_model 0))) /\
    (forall like,
       [[0; 0]; [1; 1]]%float !! 0 = Some like ->
       np_sum (forward_raw b64_uniform b64_start like 2) = 0%float ->
       sfs !! 0 = Some infinity /\
       fwd !! 0 =
         Some (scale (forward_raw b64_uniform b64_start like 2)
                 infinity)) /\
    (forall t prev like,
       1 <= t < 2 -> fwd !! (t - 1) = Some prev ->
       [[0; 0]; [1; 1]]%float !! t = Some like ->
       np_sum (forward_raw b64_uniform prev like 2) = 0%float ->
       sfs !! t = Some infinity /\
       fwd !! t =
         Some (scale (forward_raw b64_uniform prev like 2) infinity)).
Proof.
  assert (Hhyp : n_components (b64_model 0) = 2 /\
   startprob (b64_model 0) = Some b64_start /\
   length b64_start = 2 /\
   b64_transmat !! 0 = Some b64_uniform /\
   shape2 b64_uniform 2 2 /\
   shape2 [[0; 0]; [1; 1]]%float 2 2 /\ 1 <= 2).
  { repeat split; try reflexivity; try lia; repeat constructor. }
  split; [exact Hhyp|].
  destruct Hhyp as (h1 & h2 & h3 & h4 & h5 & h6 & h7).
  exact (forward_pass_zero_sum_gives_infinity (b64_model 0) b64_transmat
           [[0; 0]; [1; 1]]%float 2 2 b64_start b64_uniform
           h1 h2 h3 h4 h5 h6 h7).
Defined.

(** C8 as stated fails.  With frame likelihoods that are zero in the first
    step the sum of the first row is zero; the pass raises nothing and
    returns a lattice of NaN with an infinite scaling factor. *)
Lemma forward_pass_zero_sum_returns_nan :
  np_sum (forward_raw b64_uniform b64_start [0; 0]%float 2) = 0%float /\
  forward_lattice (b64_model 0) b64_transmat [[0; 0]]%float =
    Ok ([[nan; nan]]%float, [infinity]) /\
  (forall TR : Transcendental float,
     exists likelihood,
       _do_forward_pass (b64_model 0) b64_transmat [[0; 0]]%float =
         (Ok (likelihood, [[nan; nan]]%float),
          set_scaling_factors [infinity] (b64_model 0))).
Proof.
  split; [reflexivity|]. split; [reflexivity|].
  intros TR. eexists. reflexivity.
Qed.

(** * Further properties of the methods *)

(** ** Loops, continued *)

Lemma for_each_app {St : Type} (l1 l2 : list nat) (body : nat -> St -> result St) (s : St) :
  for_each (l1 ++ l2) body s = bind (for_each l1 body s) (for_each l2 body).
Proof.
  revert s. induction l1 as [|t l1 IH]; intros s; simpl; [reflexivity|].
  destruct (body t s) as [s1|e]; simpl; [apply IH | reflexivity].
Qed.

Lemma for_each_ext_In {St : Type} (l : list nat) (body1 body2 : nat -> St -> result St)
    (s : St) :
  (forall t s1, In t l -> body1 t s1 = body2 t s1) ->
  for_each l body1 s = for_each l body2 s.
Proof.
  revert s. induction l as [|t l IH]; intros s Hext; simpl; [reflexivity|].
  rewrite (Hext t s) by (by left).
  destruct (body2 t s) as [s1|e]; simpl; [|reflexivity].
  apply IH. intros t' s2 Hin. apply Hext. by right.
Qed.

Lemma In_range_down (k t : nat) : In t (range_down k) -> t < k.
Proof.
  unfold range_down. rewrite <- list_elem_of_In, elem_of_reverse, elem_of_seq. lia.
Qed.

(** ** Edge cases of the forward pass *)

Section ForwardEdges.

Context {F : Type} `{Arith F} `{Transcendental F}.

(** On a sequence without steps the forward pass raises [IndexError] at
    [framelogprob[0]] and assigns nothing. *)
Theorem forward_pass_empty_sequence (self : IOHMM F) (transmat : tensor F) (n : nat)
    (sp : vec F) (tm0 : mat F) :
  startprob self = Some sp -> length sp = n ->
  transmat !! 0 = Some tm0 -> shape2 tm0 n n ->
  _do_forward_pass self transmat [] = (Raise IndexError, self).
Proof.
  intros Hsp Hspl Htm Hsh.
  unfold _do_forward_pass, forward_lattice, forward_update. simpl.
  rewrite (getitem_lookup _ _ _ Htm). simpl.
  unfold startprob_vector. rewrite Hsp. simpl.
  rewrite (np_dot_transpose tm0 n sp Hsh Hspl). simpl. reflexivity.
Qed.

(** An instance whose [startprob] is [None], the default of [__init__],
    cannot run the forward pass: subscripting [None] raises [TypeError],
    whatever the likelihoods are. *)
Theorem forward_pass_without_startprob (self : IOHMM F) (transmat : tensor F)
    (framelogprob : mat F) (tm0 : mat F) :
  startprob self = None -> transmat !! 0 = Some tm0 ->
  _do_forward_pass self transmat framelogprob = (Raise TypeError, self).
Proof.
  intros Hsp Htm.
  unfold _do_forward_pass, forward_lattice, forward_update. simpl.
  rewrite (getitem_lookup _ _ _ Htm). simpl.
  unfold startprob_vector. rewrite Hsp. simpl. reflexivity.
Qed.

(** A start distribution whose length differs from the number of rows of
    [transmat[0]] makes [np.dot] raise [ValueError]; nothing is assigned. *)
Theorem forward_pass_startprob_of_wrong_length (self : IOHMM F) (transmat : tensor F)
    (framelogprob : mat F) (sp : vec F) (tm0 : mat F) :
  startprob self = Some sp -> transmat !! 0 = Some tm0 ->
  1 <= ncols tm0 -> length tm0 <> length sp ->
  _do_forward_pass self transmat framelogprob = (Raise ValueError, self).
Proof.
  intros Hsp Htm Hc Hne.
  unfold _do_forward_pass, forward_lattice, forward_update. simpl.
  rewrite (getitem_lookup _ _ _ Htm). simpl.
  unfold startprob_vector. rewrite Hsp. simpl.
  unfold np_dot. rewrite decide_False; [reflexivity|].
  intros Hall. unfold transpose in Hall.
  destruct (ncols tm0) as [|c]; [lia|]. simpl in Hall.
  inversion Hall as [|? ? Hrow _]. subst.
  unfold column in Hrow. rewrite length_fmap in Hrow. done.
Qed.

End ForwardEdges.

(** ** Edge cases of the backward pass *)

Section BackwardEdges.

Context {F : Type} `{Arith F}.

(** An instance fresh from [__init__] has no scaling factors: the backward
    pass on any sequence of at least one step raises [AttributeError]. *)
Theorem backward_pass_before_forward_pass (n : nat) (ins0 : list (mat F))
    (sp : option (vec F)) (alg : string) (rs : option Z) (it : Z) (th : F)
    (ps ips : string) (self : IOHMM F) (transmat : tensor F) (framelogprob : mat F) :
  __init__ n ins0 sp alg rs it th ps ips = Ok self ->
  framelogprob <> [] ->
  _do_backward_pass self transmat framelogprob = Raise AttributeError.
Proof.
  intros Hinit Hne.
  destruct (init_attributes _ _ _ _ _ _ _ _ _ _ Hinit) as (_ & _ & _ & _ & _ & Hsf).
  unfold _do_backward_pass.
  destruct framelogprob as [|like rest]; [done|].
  rewrite (getitem_lookup (np_ones2 (length (like :: rest)) (n_components self))
             (length (like :: rest) - 1) (replicate (n_components self) f1))
    by (apply lookup_replicate_2; simpl; lia).
  simpl. unfold scaling_factors_attr. by rewrite Hsf.
Qed.

(** On a sequence without steps the backward pass raises [IndexError],
    whatever is stored in [self]. *)
Theorem backward_pass_empty_sequence (self : IOHMM F) (transmat : tensor F) :
  _do_backward_pass self transmat [] = Raise IndexError.
Proof. reflexivity. Qed.

(** Stored scaling factors that are fewer than the steps of the sequence,
    as after a forward pass on a shorter sequence, make the backward pass
    raise [IndexError]. *)
Theorem backward_pass_with_too_few_factors (self : IOHMM F) (transmat : tensor F)
    (framelogprob : mat F) (sfs : vec F) :
  scaling_factors self = Some sfs ->
  length sfs < length framelogprob ->
  _do_backward_pass self transmat framelogprob = Raise IndexError.
Proof.
  intros Hsf Hlen. unfold _do_backward_pass.
  rewrite (getitem_lookup (np_ones2 (length framelogprob) (n_components self))
             (length framelogprob - 1) (replicate (n_components self) f1))
    by (apply lookup_replicate_2; lia).
  simpl. unfold scaling_factors_attr. rewrite Hsf. simpl.
  unfold getitem. rewrite lookup_ge_None_2 by lia. reflexivity.
Qed.

Lemma getitem_app_l {A : Type} (l1 l2 : list A) (i : nat) :
  i < length l1 -> getitem (l1 ++ l2) i = getitem l1 i.
Proof. intros Hi. unfold getitem. by rewrite lookup_app_l. Qed.

(** Scaling factors stored for a longer sequence are accepted: the entries
    past the length of the sequence are never read, and nothing tells the
    pass that the factors belong to another sequence. *)
Theorem backward_pass_ignores_further_factors (self : IOHMM F) (transmat : tensor F)
    (framelogprob : mat F) (sfs further : vec F) :
  length framelogprob <= length sfs ->
  _do_backward_pass (set_scaling_factors (sfs ++ further) self) transmat framelogprob =
  _do_backward_pass (set_scaling_factors sfs self) transmat framelogprob.
Proof.
  intros Hlen. unfold _do_backward_pass. simpl.
  destruct (getitem (np_ones2 (length framelogprob) (n_components self))
              (length framelogprob - 1)) as [row|e] eqn:Erow; simpl; [|reflexivity].
  assert (HT : 1 <= length framelogprob).
  { destruct framelogprob; [|simpl; lia]. discriminate Erow. }
  rewrite getitem_app_l by lia.
  destruct (getitem sfs (length framelogprob - 1)) as [s|e]; simpl; [|reflexivity].
  destruct (setitem_row _ _ _) as [B|e]; simpl; [|reflexivity].
  apply for_each_ext_In. intros t B1 Hin. apply In_range_down in Hin.
  unfold backward_step. simpl.
  destruct (for_each _ _ B1) as [B2|e]; simpl; [|reflexivity].
  destruct (getitem B2 t) as [r|e]; simpl; [|reflexivity].
  by rewrite getitem_app_l by lia.
Qed.

(** For a sequence of a single step the loop over [t] is empty: the
    backward pass returns one row that holds the first scaling factor in
    every state, and it never reads [transmat]. *)
Theorem backward_pass_single_step `{!ArithLaws F} (self : IOHMM F) (transmat : tensor F)
    (like : vec F) (s : F) (sfs : vec F) :
  scaling_factors self = Some (s :: sfs) ->
  _do_backward_pass self transmat [like] = Ok [replicate (n_components self) s].
Proof.
  intros Hsf. unfold _do_backward_pass. simpl.
  unfold scaling_factors_attr. rewrite Hsf. simpl.
  unfold setitem_row. simpl.
  rewrite decide_True by (by rewrite length_scale).
  simpl. f_equal. f_equal. unfold scale.
  rewrite fmap_replicate. by rewrite fmul_1_l.
Qed.

End BackwardEdges.

(** ** Edge cases of the posterior statistics *)

Section StatisticsEdges.

Context {F : Type} `{Arith F}.

(** On a sequence without steps, with at least one state, the statistics
    raise [IndexError] at [framelogprob[0]] and assign nothing. *)
Theorem statistics_empty_sequence (self : IOHMM F) (transmat : tensor F)
    (fwdlattice bwdlattice : mat F) (lpr : F) :
  1 <= n_components self ->
  _compute_sufficient_static self transmat [] fwdlattice bwdlattice lpr =
    (Raise IndexError, self).
Proof.
  intros Hn. unfold _compute_sufficient_static, trans_posts_first. simpl.
  destruct (n_components self) as [|n]; [lia|]. reflexivity.
Qed.

(** The transition posteriors read only the rows [0 .. T-2] of the forward
    lattice. *)
Lemma trans_posts_returns (self : IOHMM F) (transmat : tensor F)
    (framelogprob fwdlattice bwdlattice : mat F) (lpr : F) (T Tf n : nat) (sp : vec F) :
  n_components self = n -> startprob self = Some sp -> length sp = n ->
  shape3 transmat T n n -> shape2 framelogprob T n ->
  shape2 fwdlattice Tf n -> T - 1 <= Tf -> shape2 bwdlattice T n -> 1 <= T ->
  exists tp,
    (trans_posts <-
       trans_posts_first self transmat framelogprob bwdlattice lpr (np_tile3 f0 T n n) ;;
     trans_posts_rest self transmat framelogprob fwdlattice bwdlattice lpr T trans_posts)
    = Ok tp.
Proof.
  intros Hn Hsp Hspl Htm Hflp Hfwd HTf Hbwd HT.
  unfold trans_posts_first, trans_posts_rest. rewrite Hn.
  destruct (fill_slice
    (fun i j trans_posts =>
       a <- getitem2 framelogprob 0 i ;;
       sp <- startprob_vector self ;;
       b <- getitem sp j ;;
       c <- getitem2 bwdlattice 0 i ;;
       d <- getitem3 transmat 0 j i ;;
       setitem3 trans_posts 0 i j (fdiv (fmul (fmul (fmul a b) c) d) lpr))
    (fun i j =>
       fdiv (fmul (fmul (fmul (at2 framelogprob 0 i) (at1 sp j)) (at2 bwdlattice 0 i))
                  (at3 transmat 0 j i)) lpr)
    (np_tile3 f0 T n n) T n n 0) as (X0 & E0 & HX0 & _).
  - apply shape3_replicate.
  - lia.
  - intros i j X1 HX1 Hi Hj.
    rewrite (getitem2_at framelogprob T n 0 i) by (done || lia). simpl.
    unfold startprob_vector. rewrite Hsp. simpl.
    rewrite (getitem_lookup sp j (at1 sp j)) by (apply lookup_at1; lia). simpl.
    rewrite (getitem2_at bwdlattice T n 0 i) by (done || lia). simpl.
    rewrite (getitem3_at transmat T n n 0 j i) by (done || lia). simpl.
    reflexivity.
  - rewrite E0. simpl.
    destruct (for_each_up
      (fun (t : nat) (X1 : tensor F) => shape3 X1 T n n)
      (fun t =>
         for_each (range 0 n)
           (fun i =>
              for_each (range 0 n)
                (fun j trans_posts =>
                   a <- getitem2 framelogprob t i ;;
                   b <- getitem2 fwdlattice (t - 1) j ;;
                   c <- getitem2 bwdlattice t i ;;
                   d <- getitem3 transmat t j i ;;
                   setitem3 trans_posts t i j (fdiv (fmul (fmul (fmul a b) c) d) lpr))))
      1 (T - 1) X0) as (X' & E & _).
    + done.
    + intros t X1 Ht HX1.
      destruct (fill_slice
        (fun i j trans_posts =>
           a <- getitem2 framelogprob t i ;;
           b <- getitem2 fwdlattice (t - 1) j ;;
           c <- getitem2 bwdlattice t i ;;
           d <- getitem3 transmat t j i ;;
           setitem3 trans_posts t i j (fdiv (fmul (fmul (fmul a b) c) d) lpr))
        (fun i j =>
           fdiv (fmul (fmul (fmul (at2 framelogprob t i) (at2 fwdlattice (t - 1) j))
                            (at2 bwdlattice t i))
                      (at3 transmat t j i)) lpr)
        X1 T n n t) as (X2 & E2 & HX2 & _).
      * done.
      * lia.
      * intros i j X3 HX3 Hi Hj.
        rewrite (getitem2_at framelogprob T n t i) by (done || lia). simpl.
        rewrite (getitem2_at fwdlattice Tf n (t - 1) j) by (done || lia). simpl.
        rewrite (getitem2_at bwdlattice T n t i) by (done || lia). simpl.
        rewrite (getitem3_at transmat T n n t j i) by (done || lia). simpl.
        reflexivity.
      * exists X2. done.
    + exists X'. exact E.
Qed.

(** The products of the lattices stop at the first missing row of the
    forward lattice. *)
Lemma state_posts_raises (self : IOHMM F) (fwdlattice bwdlattice : mat F) (T n : nat) :
  n_components self = n -> 1 <= n -> 1 <= T ->
  shape2 fwdlattice (T - 1) n -> shape2 bwdlattice T n ->
  state_posts_products self fwdlattice bwdlattice T (np_zeros2 T n) = Raise IndexError.
Proof.
  intros Hn Hn1 HT Hfwd Hbwd. unfold state_posts_products. rewrite Hn, range_0.
  replace T with (T - 1 + 1) at 1 by lia.
  rewrite seq_app, for_each_app. simpl.
  destruct (for_each_up
    (fun (t : nat) (M : mat F) => shape2 M T n)
    (fun t =>
       for_each (range 0 n)
         (fun i state_posts =>
            a <- getitem2 fwdlattice t i ;;
            b <- getitem2 bwdlattice t i ;;
            setitem2 state_posts t i (fmul a b)))
    0 (T - 1) (np_zeros2 T n)) as (M1 & E1 & HM1).
  - apply shape2_replicate.
  - intros t M Ht HM. rewrite range_0.
    destruct (for_each_up
      (fun (i : nat) (M2 : mat F) => shape2 M2 T n)
      (fun i state_posts =>
         a <- getitem2 fwdlattice t i ;;
         b <- getitem2 bwdlattice t i ;;
         setitem2 state_posts t i (fmul a b))
      0 n M) as (M2 & E2 & HM2).
    + done.
    + intros i M3 Hi HM3.
      rewrite (getitem2_at fwdlattice (T - 1) n t i) by (done || lia). simpl.
      rewrite (getitem2_at bwdlattice T n t i) by (done || lia). simpl.
      destruct (setitem2_at M3 T n t i (fmul (at2 fwdlattice t i) (at2 bwdlattice t i)) HM3)
        as (M4 & E4 & HM4 & _); try lia.
      exists M4. done.
    + exists M2. done.
  - rewrite E1. simpl. rewrite range_0.
    destruct n as [|n']; [lia|]. simpl.
    unfold getitem2 at 1. unfold getitem at 1.
    rewrite lookup_ge_None_2 by (destruct Hfwd; lia). reflexivity.
Qed.

(** The two attributes are not assigned together.  When the forward
    lattice lacks its last row, the transition posteriors are computed and
    stored in [self.trans_posts], and then the state posteriors raise
    [IndexError]: [self.state_posts] keeps what it held before. *)
Theorem statistics_assign_trans_posts_before_raising (self : IOHMM F) (transmat : tensor F)
    (framelogprob fwdlattice bwdlattice : mat F) (lpr : F) (T n : nat) (sp : vec F) :
  n_components self = n -> 1 <= n -> startprob self = Some sp -> length sp = n ->
  shape3 transmat T n n -> shape2 framelogprob T n ->
  shape2 fwdlattice (T - 1) n -> shape2 bwdlattice T n -> 1 <= T ->
  exists tp,
    _compute_sufficient_static self transmat framelogprob fwdlattice bwdlattice lpr =
      (Raise IndexError, set_trans_posts tp self) /\
    state_posts (set_trans_posts tp self) = state_posts self.
Proof.
  intros Hn Hn1 Hsp Hspl Htm Hflp Hfwd Hbwd HT.
  destruct (trans_posts_returns self transmat framelogprob fwdlattice bwdlattice lpr
              T (T - 1) n sp) as (tp & Etp); try done.
  exists tp. unfold _compute_sufficient_static.
  destruct Hflp as [HlenT Hrows]. rewrite HlenT, Hn, Etp.
  rewrite (state_posts_raises (set_trans_posts tp self) fwdlattice bwdlattice T n);
    try done.
Qed.

End StatisticsEdges.

(** ** [fit], continued *)

Section FitEdges.

Context {F : Type} `{Arith F} `{Transcendental F} `{Extmath F}.

(** With an empty corpus and [n_iter >= 1] the loop over the sequences runs
    no step, [lpr] is never assigned, and [logprob.append(lpr)] raises
    [UnboundLocalError] in the first iteration. *)
Theorem fit_on_empty_corpus (h : Hooks F) (self self1 self2 : IOHMM F) :
  _init h [] (init_params self) self = (Ok tt, self1) ->
  (1 <= n_iter self1)%Z ->
  _initialize_sufficient_statistics h self1 = (Ok tt, self2) ->
  fit h self [] =
    (Raise UnboundLocalError,
     {| self_ := self2; local_i := Some 0; local_lpr := None; local_logprob := [];
        trace := [EvInit; EvInitStats] |}).
Proof.
  intros Hinit Hn Hstats.
  unfold fit, fit_body, sbind, tick, modify, gets, on_self, assign_logprob. simpl.
  rewrite Hinit. simpl.
  destruct (Z.to_nat (n_iter self1)) as [|k] eqn:Ek; [lia|].
  unfold range. simpl.
  unfold sbind, assign_i, tick, modify, on_self. simpl.
  rewrite Hstats. simpl. reflexivity.
Qed.

(** Whatever the hooks, the corpus and [n_iter] are, [fit] does at most
    this: the initialization, the statistics hook of the first iteration
    and the start of its first sequence.  It never reaches a convergence
    test, an M-step or a second iteration. *)
Theorem fit_never_reaches_the_mstep (h : Hooks F) (self : IOHMM F) (obs : list (mat F)) :
  (trace (fit h self obs).2 = [EvInit] \/
   trace (fit h self obs).2 = [EvInit; EvInitStats] \/
   trace (fit h self obs).2 = [EvInit; EvInitStats; EvSequence 0]) /\
  ~ In EvConvergenceCheck (trace (fit h self obs).2) /\
  ~ In EvMStep (trace (fit h self obs).2).
Proof.
  assert (Hcases :
    trace (fit h self obs).2 = [EvInit] \/
    trace (fit h self obs).2 = [EvInit; EvInitStats] \/
    trace (fit h self obs).2 = [EvInit; EvInitStats; EvSequence 0]).
  { unfold fit, fit_body, sbind, tick, modify, gets, on_self, assign_logprob. simpl.
    destruct (_init h obs (init_params self) self) as [[[]|e] s1]; simpl; [|by left].
    destruct (Z.to_nat (n_iter s1)) as [|k]; [by left|].
    unfold range. simpl.
    unfold sbind, assign_i, tick, modify, on_self. simpl.
    destruct (_initialize_sufficient_statistics h s1) as [[[]|e] s2]; simpl;
      [|by right; left].
    destruct obs as [|o obs]; simpl; [by right; left|].
    unfold estep_sequence, sbind, assign_i, tick, modify, lift, reading_self. simpl.
    destruct (getitem (ins s2) 0) as [u|e]; simpl; by right; right. }
  split; [exact Hcases|].
  destruct Hcases as [-> | [-> | ->]]; split; simpl; intuition discriminate.
Qed.

(** With the hooks of the base class [fit] leaves the model as it was, on
    every corpus and for every [n_iter]: no attribute is assigned. *)
Theorem fit_of_the_base_class_keeps_the_model (self : IOHMM F) (obs : list (mat F)) :
  self_ (fit base_hooks self obs).2 = self.
Proof.
  unfold fit, fit_body, sbind, tick, modify, gets, on_self, assign_logprob. simpl.
  destruct (Z.to_nat (n_iter self)) as [|k]; [reflexivity|].
  unfold range. simpl.
  unfold sbind, assign_i, tick, modify, on_self. simpl.
  destruct obs as [|o obs]; simpl; [reflexivity|].
  unfold estep_sequence, sbind, assign_i, tick, modify, lift, reading_self. simpl.
  destruct (getitem (ins self) 0) as [u|e]; simpl; reflexivity.
Qed.

End FitEdges.

(** ** The convergence test *)

Section ConvergenceTest.

Context {F : Type} `{Arith F}.

Lemma getitem_neg_last {A : Type} (l : list A) (x : A) : getitem_neg (l ++ [x]) 1 = Ok x.
Proof.
  unfold getitem_neg. rewrite length_app. simpl.
  rewrite decide_True by lia. apply getitem_lookup.
  replace (length l + 1 - 1) with (length l + 0) by lia.
  by rewrite lookup_app_r, Nat.add_comm, Nat.add_sub by lia.
Qed.

Lemma getitem_neg_before_last {A : Type} (l : list A) (p x : A) :
  getitem_neg ((l ++ [p]) ++ [x]) 2 = Ok p.
Proof.
  unfold getitem_neg. rewrite !length_app. simpl.
  rewrite decide_True by lia. apply getitem_lookup.
  rewrite lookup_app_l by (rewrite length_app; simpl; lia).
  replace (length l + 1 + 1 - 2) with (length l + 0) by lia.
  by rewrite lookup_app_r, Nat.add_comm, Nat.add_sub by lia.
Qed.

(** After a corpus of one sequence the variable [i] is [0], so the test of
    line 119 is false whatever the log-likelihoods are: the new value is
    appended to [logprob] and the M-step runs. *)
Theorem em_tail_after_one_sequence (h : Hooks F) (fr : frame F) (x : F) (s' : IOHMM F) :
  local_i fr = Some 0 -> local_lpr fr = Some x ->
  _do_mstep h (self_ fr) = (Ok tt, s') ->
  em_tail h fr =
    (Ok false,
     {| self_ := s'; local_i := Some 0; local_lpr := Some x;
        local_logprob := local_logprob fr ++ [x];
        trace := (trace fr ++ [EvConvergenceCheck]) ++ [EvMStep] |}).
Proof.
  intros Hi Hlpr Hm.
  unfold em_tail, convergence_check, sbind, read_local, gets, assign_logprob, tick, modify,
    on_self, sret. simpl.
  rewrite Hlpr. simpl. rewrite Hi. simpl. rewrite Hm. simpl. by rewrite ?Hi, ?Hlpr.
Qed.

(** After a corpus of several sequences [i] is positive.  With an earlier
    log-likelihood [p] on record the loop stops exactly when
    [lpr - p < thresh] holds, strictly; it then skips the M-step, and
    otherwise runs it.  The new value is appended to [logprob] either way. *)
Theorem em_tail_after_several_sequences (h : Hooks F) (fr : frame F) (k : nat) (x p : F)
    (l : list F) (s' : IOHMM F) :
  local_i fr = Some (S k) -> local_lpr fr = Some x ->
  local_logprob fr = l ++ [p] ->
  _do_mstep h (self_ fr) = (Ok tt, s') ->
  em_tail h fr =
    if fltb (fsub x p) (thresh (self_ fr))
    then (Ok true,
          {| self_ := self_ fr; local_i := Some (S k); local_lpr := Some x;
             local_logprob := (l ++ [p]) ++ [x];
             trace := trace fr ++ [EvConvergenceCheck] |})
    else (Ok false,
          {| self_ := s'; local_i := Some (S k); local_lpr := Some x;
             local_logprob := (l ++ [p]) ++ [x];
             trace := (trace fr ++ [EvConvergenceCheck]) ++ [EvMStep] |}).
Proof.
  intros Hi Hlpr Hlog Hm.
  unfold em_tail, convergence_check, sbind, read_local, gets, assign_logprob, tick, modify,
    on_self, sret. simpl.
  rewrite Hlpr. simpl. rewrite Hi. simpl. rewrite Hlog.
  rewrite getitem_neg_last, getitem_neg_before_last. simpl.
  destruct (fltb (fsub x p) (thresh (self_ fr))); simpl;
    rewrite ?Hm; simpl; by rewrite ?Hi, ?Hlpr, ?Hlog.
Qed.

(** In a first iteration over several sequences [logprob] holds one value
    when the test reads [logprob[-2]]: [IndexError]. *)
Theorem em_tail_first_iteration_of_several_sequences (h : Hooks F) (fr : frame F)
    (k : nat) (x : F) :
  local_i fr = Some (S k) -> local_lpr fr = Some x -> local_logprob fr = [] ->
  em_tail h fr =
    (Raise IndexError,
     {| self_ := self_ fr; local_i := Some (S k); local_lpr := Some x;
        local_logprob := [x]; trace := trace fr ++ [EvConvergenceCheck] |}).
Proof.
  intros Hi Hlpr Hlog.
  unfold em_tail, convergence_check, sbind, read_local, gets, assign_logprob, tick, modify,
    on_self, sret. simpl.
  rewrite Hlpr. simpl. rewrite Hi. simpl. rewrite Hlog. simpl.
  by rewrite ?Hi, ?Hlpr, ?Hlog.
Qed.

End ConvergenceTest.

(** ** The constructor and the loops of the transition builder *)

Section Construction.

Context {F : Type} `{Arith F}.



Lemma init_weights (n : nat) (ins0 : list (mat F)) (sp : option (vec F))
    (alg : string) (rs : option Z) (it : Z) (th : F) (ps ips : string) (self : IOHMM F) :
  __init__ n ins0 sp alg rs it th ps ips = Ok self ->
  n_components self = n /\
  trans_weight_mat self =
    np_tile3 (fdiv f1 (of_nat (input_dim self + 1))) n n (input_dim self + 1).
Proof.
  unfold __init__. destruct ins0 as [|first rest]; simpl; [discriminate|].
  intros [= <-]. simpl. done.
Qed.

(** The loops of [_compute_transmat] could not run on an instance that
    [__init__] built even if they were reached: the weight matrices have
    [input_dim + 1] columns, the input vector has [input_dim] entries and no
    constant is appended to it, so the first [np.dot] raises [ValueError],
    whatever array the loops are to fill. *)
Theorem transition_loops_raise_without_bias `{Extmath F} (n : nat) (ins0 : list (mat F))
    (sp : option (vec F)) (alg : string) (rs : option Z) (it : Z) (th : F) (ps ips : string)
    (self : IOHMM F) (u : vec F) (rest : mat F) (X : tensor F) :
  __init__ n ins0 sp alg rs it th ps ips = Ok self ->
  1 <= n -> length u = input_dim self ->
  compute_transmat_loops self (u :: rest) X = Raise ValueError.
Proof.
  intros Hinit Hn Hu.
  destruct (init_weights _ _ _ _ _ _ _ _ _ _ Hinit) as [Hnc Hw].
  unfold compute_transmat_loops. rewrite Hnc, Hw.
  destruct n as [|n']; [lia|].
  unfold range. simpl.
  unfold np_dot. rewrite decide_False; [reflexivity|].
  intros Hall. inversion Hall as [|? ? Hrow _]. subst.
  rewrite length_replicate in Hrow. lia.
Qed.

End Construction.

(** ** The methods of the E-step in sequence *)

Section Pipeline.

Context {F : Type} `{Arith F} `{Transcendental F}.

(** Called with the arguments they accept, the three methods of the E-step
    run one after the other on every well-shaped sequence of [T >= 1] steps:
    the forward pass stores its factors, the backward pass reads them, and
    the statistics, given the likelihood the forward pass returned, store
    posteriors with
    [state_posts[t][i] = fwdlattice[t][i] * bwdlattice[t][i] / likelihood]. *)
Theorem estep_methods_run_in_sequence (self : IOHMM F) (transmat : tensor F)
    (framelogprob : mat F) (T n : nat) (sp : vec F) :
  n_components self = n -> startprob self = Some sp -> length sp = n ->
  shape3 transmat T n n -> shape2 framelogprob T n -> 1 <= T ->
  exists likelihood fwdlattice sfs bwdlattice tp sps,
    _do_forward_pass self transmat framelogprob =
      (Ok (likelihood, fwdlattice), set_scaling_factors sfs self) /\
    _do_backward_pass (set_scaling_factors sfs self) transmat framelogprob = Ok bwdlattice /\
    _compute_sufficient_static (set_scaling_factors sfs self) transmat framelogprob
      fwdlattice bwdlattice likelihood =
      (Ok tt, set_state_posts sps (set_trans_posts tp (set_scaling_factors sfs self))) /\
    shape3 tp T n n /\ shape2 sps T n /\
    (forall t i, t < T -> i < n ->
       at2 sps t i = fdiv (fmul (at2 fwdlattice t i) (at2 bwdlattice t i)) likelihood).
Proof.
  intros Hn Hsp Hspl Htm Hflp HT.
  destruct (shape3_lookup transmat T n n 0 Htm) as (tm0 & Htm0 & Hsh0); [lia|].
  destruct (forward_lattice_spec self transmat framelogprob T n sp tm0)
    as (fwd & sfs & E & Hfwd & Hsfs & _); try done.
  destruct (backward_pass_spec (set_scaling_factors sfs self) transmat framelogprob T T n sfs)
    as (bwd & Eb & Hb & _); try done; try lia.
  set (lik := np_exp (fmul (fopp f1) (np_sum (np_log <$> sfs)))).
  destruct (trans_posts_spec (set_scaling_factors sfs self) transmat framelogprob fwd bwd
              lik T n sp) as (tp & Etp & Htp & _); try done.
  destruct (state_posts_spec (set_trans_posts tp (set_scaling_factors sfs self)) fwd bwd T n)
    as (sps & Esps & Hsps & Hprod); try done.
  exists lik, fwd, sfs, bwd, tp, (div_scalar sps lik).
  split. { unfold _do_forward_pass. rewrite E. reflexivity. }
  split; [exact Eb|]. split.
  { unfold _compute_sufficient_static.
    destruct Hflp as [HlenT Hrows]. rewrite HlenT.
    replace (n_components (set_scaling_factors sfs self)) with n by done.
    rewrite Etp.
    replace (n_components (set_trans_posts tp (set_scaling_factors sfs self))) with n
      in Esps |- * by done.
    rewrite Esps. reflexivity. }
  split; [done|]. split; [by apply shape2_div_scalar|].
  intros t i Ht Hi. rewrite (at2_div_scalar sps T n t i lik) by done.
  by rewrite Hprod.
Qed.

End Pipeline.

(** ** The further properties on the example *)

Lemma forward_pass_empty_sequence_witness :
  (startprob (b64_model 0) = Some b64_start /\ length b64_start = 2 /\
   b64_transmat !! 0 = Some b64_uniform /\ shape2 b64_uniform 2 2) /\
  forall TR : Transcendental float,
    _do_forward_pass (b64_model 0) b64_transmat [] = (Raise IndexError, b64_model 0).
Proof.
  assert (Hhyp : startprob (b64_model 0) = Some b64_start /\ length b64_start = 2 /\
                 b64_transmat !! 0 = Some b64_uniform /\ shape2 b64_uniform 2 2).
  { repeat split; try reflexivity; repeat constructor. }
  split; [exact Hhyp|]. destruct Hhyp as (h1 & h2 & h3 & h4). intros TR.
  exact (forward_pass_empty_sequence (b64_model 0) b64_transmat 2 b64_start b64_uniform
           h1 h2 h3 h4).
Defined.

Lemma forward_pass_without_startprob_witness :
  (startprob b64_model_without_start = None /\ b64_transmat !! 0 = Some b64_uniform) /\
  forall TR : Transcendental float,
    _do_forward_pass b64_model_without_start b64_transmat b64_framelogprob =
      (Raise TypeError, b64_model_without_start).
Proof.
  split; [split; reflexivity|]. intros TR.
  exact (forward_pass_without_startprob b64_model_without_start b64_transmat
           b64_framelogprob b64_uniform eq_refl eq_refl).
Defined.

Lemma forward_pass_startprob_of_wrong_length_witness :
  (startprob b64_model_long_start = Some [0.5; 0.25; 0.25]%float /\
   b64_transmat !! 0 = Some b64_uniform /\
   1 <= ncols b64_uniform /\ length b64_uniform <> length [0.5; 0.25; 0.25]%float) /\
  forall TR : Transcendental float,
    _do_forward_pass b64_model_long_start b64_transmat b64_framelogprob =
      (Raise ValueError, b64_model_long_start).
Proof.
  assert (Hhyp : startprob b64_model_long_start = Some [0.5; 0.25; 0.25]%float /\
   b64_transmat !! 0 = Some b64_uniform /\
   1 <= ncols b64_uniform /\ length b64_uniform <> length [0.5; 0.25; 0.25]%float).
  { split; [reflexivity|]. split; [reflexivity|]. split; [unfold ncols; simpl; lia|].
    simpl. lia. }
  split; [exact Hhyp|]. destruct Hhyp as (h1 & h2 & h3 & h4). intros TR.
  exact (forward_pass_startprob_of_wrong_length b64_model_long_start b64_transmat
           b64_framelogprob [0.5; 0.25; 0.25]%float b64_uniform h1 h2 h3 h4).
Defined.

Lemma backward_pass_before_forward_pass_witness :
  (__init__ 2 [b64_inputs; b64_inputs] (Some b64_start) "viterbi" None 0 0.5%float "" "" =
     Ok (b64_model 0) /\
   b64_framelogprob <> []) /\
  _do_backward_pass (b64_model 0) b64_transmat b64_framelogprob = Raise AttributeError.
Proof.
  assert (Hhyp :
    __init__ 2 [b64_inputs; b64_inputs] (Some b64_start) "viterbi" None 0 0.5%float "" "" =
      Ok (b64_model 0) /\
    b64_framelogprob <> []).
  { split; [reflexivity | discriminate]. }
  split; [exact Hhyp|]. destruct Hhyp as (h1 & h2).
  exact (backward_pass_before_forward_pass 2 [b64_inputs; b64_inputs] (Some b64_start)
           "viterbi" None 0 0.5%float "" "" (b64_model 0) b64_transmat b64_framelogprob h1 h2).
Defined.

Lemma backward_pass_with_too_few_factors_witness :
  (scaling_factors (set_scaling_factors [1%float] (b64_model 0)) = Some [1%float] /\
   length [1%float] < length b64_framelogprob) /\
  _do_backward_pass (set_scaling_factors [1%float] (b64_model 0)) b64_transmat
    b64_framelogprob = Raise IndexError.
Proof.
  assert (Hhyp : scaling_factors (set_scaling_factors [1%float] (b64_model 0)) =
                   Some [1%float] /\
                 length [1%float] < length b64_framelogprob).
  { split; [reflexivity | simpl; lia]. }
  split; [exact Hhyp|]. destruct Hhyp as (h1 & h2).
  exact (backward_pass_with_too_few_factors (set_scaling_factors [1%float] (b64_model 0))
           b64_transmat b64_framelogprob [1%float] h1 h2).
Defined.

Lemma backward_pass_ignores_further_factors_witness :
  length b64_framelogprob <= length [1; 1; 1]%float /\
  _do_backward_pass (set_scaling_factors ([1; 1; 1] ++ [2])%float (b64_model 0))
    b64_transmat b64_framelogprob =
  _do_backward_pass (set_scaling_factors [1; 1; 1]%float (b64_model 0))
    b64_transmat b64_framelogprob.
Proof.
  assert (Hhyp : length b64_framelogprob <= length [1; 1; 1]%float) by (simpl; lia).
  split; [exact Hhyp|].
  exact (backward_pass_ignores_further_factors (b64_model 0) b64_transmat b64_framelogprob
           [1; 1; 1]%float [2%float] Hhyp).
Defined.

Lemma backward_pass_single_step_witness :
  scaling_factors (set_scaling_factors [2%float] (b64_model 0)) = Some [2%float] /\
  _do_backward_pass (set_scaling_factors [2%float] (b64_model 0)) [] [[1; 1]%float] =
    Ok [replicate (n_components (set_scaling_factors [2%float] (b64_model 0))) 2%float].
Proof.
  split; [reflexivity|].
  exact (backward_pass_single_step (set_scaling_factors [2%float] (b64_model 0)) []
           [1; 1]%float 2%float [] eq_refl).
Defined.

Lemma statistics_empty_sequence_witness :
  1 <= n_components (b64_model 0) /\
  _compute_sufficient_static (b64_model 0) b64_transmat [] [] [] 1%float =
    (Raise IndexError, b64_model 0).
Proof.
  assert (Hhyp : 1 <= n_components (b64_model 0)) by (simpl; lia).
  split; [exact Hhyp|].
  exact (statistics_empty_sequence (b64_model 0) b64_transmat [] [] 1%float Hhyp).
Defined.

Lemma statistics_assign_trans_posts_before_raising_witness :
  (n_components (b64_model 0) = 2 /\ 1 <= 2 /\ startprob (b64_model 0) = Some b64_start /\
   length b64_start = 2 /\ shape3 b64_transmat1 1 2 2 /\ shape2 b64_ones1 1 2 /\
   shape2 ([] : mat float) (1 - 1) 2 /\ shape2 b64_ones1 1 2 /\ 1 <= 1) /\
  exists tp,
    _compute_sufficient_static (b64_model 0) b64_transmat1 b64_ones1 [] b64_ones1 1%float =
      (Raise IndexError, set_trans_posts tp (b64_model 0)) /\
    state_posts (set_trans_posts tp (b64_model 0)) = state_posts (b64_model 0).
Proof.
  assert (Hhyp :
    n_components (b64_model 0) = 2 /\ 1 <= 2 /\ startprob (b64_model 0) = Some b64_start /\
    length b64_start = 2 /\ shape3 b64_transmat1 1 2 2 /\ shape2 b64_ones1 1 2 /\
    shape2 ([] : mat float) (1 - 1) 2 /\ shape2 b64_ones1 1 2 /\ 1 <= 1).
  { repeat split; try reflexivity; try lia; repeat constructor. }
  split; [exact Hhyp|].
  destruct Hhyp as (h1 & h2 & h3 & h4 & h5 & h6 & h7 & h8 & h9).
  exact (statistics_assign_trans_posts_before_raising (b64_model 0) b64_transmat1 b64_ones1
           [] b64_ones1 1%float 1 2 b64_start h1 h2 h3 h4 h5 h6 h7 h8 h9).
Defined.

Lemma fit_on_empty_corpus_witness :
  (_init base_hooks [] (init_params (b64_model 2)) (b64_model 2) = (Ok tt, b64_model 2) /\
   (1 <= n_iter (b64_model 2))%Z /\
   _initialize_sufficient_statistics base_hooks (b64_model 2) = (Ok tt, b64_model 2)) /\
  forall (TR : Transcendental float) (EX : Extmath float),
    fit base_hooks (b64_model 2) [] =
      (Raise UnboundLocalError,
       {| self_ := b64_model 2; local_i := Some 0; local_lpr := None; local_logprob := [];
          trace := [EvInit; EvInitStats] |}).
Proof.
  assert (Hhyp :
    _init base_hooks [] (init_params (b64_model 2)) (b64_model 2) = (Ok tt, b64_model 2) /\
    (1 <= n_iter (b64_model 2))%Z /\
    _initialize_sufficient_statistics base_hooks (b64_model 2) = (Ok tt, b64_model 2)).
  { repeat split; try reflexivity; try discriminate. }
  split; [exact Hhyp|]. destruct Hhyp as (h1 & h2 & h3). intros TR EX.
  exact (fit_on_empty_corpus base_hooks (b64_model 2) (b64_model 2) (b64_model 2) h1 h2 h3).
Defined.

Lemma em_tail_after_one_sequence_witness :
  (local_i (b64_frame 0 [1%float] 1%float) = Some 0 /\
   local_lpr (b64_frame 0 [1%float] 1%float) = Some 1%float /\
   _do_mstep base_hooks (self_ (b64_frame 0 [1%float] 1%float)) = (Ok tt, b64_model 2)) /\
  em_tail base_hooks (b64_frame 0 [1%float] 1%float) =
    (Ok false,
     {| self_ := b64_model 2; local_i := Some 0; local_lpr := Some 1%float;
        local_logprob := local_logprob (b64_frame 0 [1%float] 1%float) ++ [1%float];
        trace := (trace (b64_frame 0 [1%float] 1%float) ++ [EvConvergenceCheck])
                 ++ [EvMStep] |}).
Proof.
  split; [repeat split; reflexivity|].
  exact (em_tail_after_one_sequence base_hooks (b64_frame 0 [1%float] 1%float) 1%float
           (b64_model 2) eq_refl eq_refl eq_refl).
Defined.

Lemma em_tail_after_several_sequences_witness :
  (local_i (b64_frame 1 [1%float] 1.5%float) = Some 1 /\
   local_lpr (b64_frame 1 [1%float] 1.5%float) = Some 1.5%float /\
   local_logprob (b64_frame 1 [1%float] 1.5%float) = [] ++ [1%float] /\
   _do_mstep base_hooks (self_ (b64_frame 1 [1%float] 1.5%float)) = (Ok tt, b64_model 2)) /\
  em_tail base_hooks (b64_frame 1 [1%float] 1.5%float) =
    if fltb (fsub 1.5%float 1%float) (thresh (self_ (b64_frame 1 [1%float] 1.5%float)))
    then (Ok true,
          {| self_ := self_ (b64_frame 1 [1%float] 1.5%float); local_i := Some 1;
             local_lpr := Some 1.5%float;
             local_logprob := ([] ++ [1%float]) ++ [1.5%float];
             trace := trace (b64_frame 1 [1%float] 1.5%float) ++ [EvConvergenceCheck] |})
    else (Ok false,
          {| self_ := b64_model 2; local_i := Some 1; local_lpr := Some 1.5%float;
             local_logprob := ([] ++ [1%float]) ++ [1.5%float];
             trace := (trace (b64_frame 1 [1%float] 1.5%float) ++ [EvConvergenceCheck])
                      ++ [EvMStep] |}).
Proof.
  split; [repeat split; reflexivity|].
  exact (em_tail_after_several_sequences base_hooks (b64_frame 1 [1%float] 1.5%float) 0
           1.5%float 1%float [] (b64_model 2) eq_refl eq_refl eq_refl eq_refl).
Defined.

Lemma em_tail_first_iteration_of_several_sequences_witness :
  (local_i (b64_frame 1 [] 1%float) = Some 1 /\
   local_lpr (b64_frame 1 [] 1%float) = Some 1%float /\
   local_logprob (b64_frame 1 [] 1%float) = []) /\
  em_tail base_hooks (b64_frame 1 [] 1%float) =
    (Raise IndexError,
     {| self_ := self_ (b64_frame 1 [] 1%float); local_i := Some 1;
        local_lpr := Some 1%float; local_logprob := [1%float];
        trace := trace (b64_frame 1 [] 1%float) ++ [EvConvergenceCheck] |}).
Proof.
  split; [repeat split; reflexivity|].
  exact (em_tail_first_iteration_of_several_sequences base_hooks (b64_frame 1 [] 1%float) 0
           1%float eq_refl eq_refl eq_refl).
Defined.

Lemma transition_loops_raise_without_bias_witness :
  (__init__ 2 [b64_inputs; b64_inputs] (Some b64_start) "viterbi" None 2 0.5%float "" "" =
     Ok (b64_model 2) /\
   1 <= 2 /\ length [1%float] = input_dim (b64_model 2)) /\
  forall (EX : Extmath float) (X : tensor float),
    compute_transmat_loops (b64_model 2) ([1%float] :: [[1%float]; [1%float]]) X =
      Raise ValueError.
Proof.
  assert (Hhyp :
    __init__ 2 [b64_inputs; b64_inputs] (Some b64_start) "viterbi" None 2 0.5%float "" "" =
      Ok (b64_model 2) /\
    1 <= 2 /\ length [1%float] = input_dim (b64_model 2)).
  { repeat split; try reflexivity; lia. }
  split; [exact Hhyp|]. destruct Hhyp as (h1 & h2 & h3). intros EX X.
  exact (transition_loops_raise_without_bias 2 [b64_inputs; b64_inputs] (Some b64_start)
           "viterbi" None 2 0.5%float "" "" (b64_model 2) [1%float] [[1%float]; [1%float]] X
           h1 h2 h3).
Defined.

Lemma estep_methods_run_in_sequence_witness :
  (n_components (b64_model 0) = 2 /\ startprob (b64_model 0) = Some b64_start /\
   length b64_start = 2 /\
   shape3 b64_transmat 3 2 2 /\ shape2 b64_framelogprob 3 2 /\ 1 <= 3) /\
  forall TR : Transcendental float,
  exists likelihood fwdlattice sfs bwdlattice tp sps,
    _do_forward_pass (b64_model 0) b64_transmat b64_framelogprob =
      (Ok (likelihood, fwdlattice), set_scaling_factors sfs (b64_model 0)) /\
    _do_backward_pass (set_scaling_factors sfs (b64_model 0)) b64_transmat b64_framelogprob =
      Ok bwdlattice /\
    _compute_sufficient_static (set_scaling_factors sfs (b64_model 0)) b64_transmat
      b64_framelogprob fwdlattice bwdlattice likelihood =
      (Ok tt,
       set_state_posts sps (set_trans_posts tp (set_scaling_factors sfs (b64_model 0)))) /\
    shape3 tp 3 2 2 /\ shape2 sps 3 2 /\
    (forall t i, t < 3 -> i < 2 ->
       at2 sps t i = fdiv (fmul (at2 fwdlattice t i) (at2 bwdlattice t i)) likelihood).
Proof.
  assert (Hhyp :
    n_components (b64_model 0) = 2 /\ startprob (b64_model 0) = Some b64_start /\
    length b64_start = 2 /\
    shape3 b64_transmat 3 2 2 /\ shape2 b64_framelogprob 3 2 /\ 1 <= 3).
  { repeat split; try reflexivity; try lia; repeat constructor. }
  split; [exact Hhyp|]. destruct Hhyp as (h1 & h2 & h3 & h4 & h5 & h6). intros TR.
  exact (estep_methods_run_in_sequence (b64_model 0) b64_transmat b64_framelogprob 3 2
           b64_start h1 h2 h3 h4 h5 h6).
Defined.
